(** * kst-fun-metro: availability-driven fallback and focus coordination

    A shallow embedding of the control logic of the demo application:

    - the child wrapper component [NativeTextInput]
      (specs/LegacyRCTViewManager/NativeTextInput.tsx and
      specs/JSINewArchitecture/NativeTextInput.tsx, which have the same
      body up to the name of the native component), with its imperative
      handle and its availability effect;
    - the parent component [App] (App.tsx) with its four pieces of state,
      its four refs and its handlers [handleLegacyChange],
      [handleFabricChange] and [clearInputs].

    JavaScript effects are made explicit: a handler is a computation that
    produces a trace of observable events together with either a thrown
    value or a result. *)

From Stdlib Require Import String List Bool Arith ZArith Lia.
Import ListNotations.
Open Scope string_scope.
Open Scope list_scope.

(* ===================================================================== *)
(** ** JavaScript values and the effect monad                             *)
(* ===================================================================== *)

(** The few JavaScript values the handlers can observe. *)
Inductive JsValue : Type :=
| JsUndefined
| JsNull
| JsBool (b : bool)
| JsString (s : string).

(** [if (v)], [v || w] *)
Definition truthy (v : JsValue) : bool :=
  match v with
  | JsUndefined | JsNull => false
  | JsBool b => b
  | JsString s => negb (s =? "")
  end.

(** [v ?? w] takes [w] exactly when [v] is [undefined] or [null]. *)
Definition nullish (v : JsValue) : bool :=
  match v with
  | JsUndefined | JsNull => true
  | _ => false
  end.

(** A thrown value, identified by its message. *)
Definition Exn : Type := string.

(** The two logical input positions of the application. *)
Inductive Slot : Type := Legacy | Fabric.

(** Which of the two refs of a slot a call goes through: the ref of the
    native wrapper ([legacyInputRef], [fabricInputRef]) or the ref of the
    JavaScript [TextInput] rendered as fallback ([legacyFallbackRef],
    [fabricFallbackRef]). *)
Inductive HandleKind : Type := Primary | Fallback.

Inductive Method : Type :=
| MFocus
| MClear
| MIsFocused
| MSetNativeProps (text : string)
| MIsNativeComponentAvailable.

(** The closure given to [setTimeout] by [clearInputs]. It captures the
    value of [isLegacyNativeAvailable] of the render that created it; the
    refs are read when it runs. *)
Inductive Callback : Type :=
| FocusLegacy (capturedIsLegacyNativeAvailable : bool).

Inductive Event : Type :=
| SetLegacyText (text : string)
| SetFabricText (text : string)
| SetIsLegacyNativeAvailable (v : bool)
| SetIsFabricNativeAvailable (v : bool)
| HandleCall (s : Slot) (k : HandleKind) (m : Method)
    (* App calls [m] on the object held by a ref of slot [s] *)
| HostCall (id : nat) (m : Method)
    (* a wrapper calls [m] on the underlying host input [id] *)
| ConsoleWarn (msg : string) (e : Exn)
| SetTimeout (cb : Callback) (ms : nat).

(** A computation: the events it produced, and how it ended. *)
Definition M (A : Type) : Type := list Event * (Exn + A).

Definition ret {A} (a : A) : M A := ([], inr a).
Definition throw {A} (e : Exn) : M A := ([], inl e).
Definition emit (ev : Event) : M unit := ([ev], inr tt).

Definition bind {A B} (m : M A) (k : A -> M B) : M B :=
  match m with
  | (tr, inl e) => (tr, inl e)
  | (tr, inr a) => let (tr', r) := k a in (tr ++ tr', r)
  end.

(** [try { m } catch (e) { h e }] *)
Definition try_catch {A} (m : M A) (h : Exn -> M A) : M A :=
  match m with
  | (tr, inl e) => let (tr', r) := h e in (tr ++ tr', r)
  | (tr, inr a) => (tr, inr a)
  end.

Declare Scope js_scope.
Delimit Scope js_scope with js.
Notation "x <- c1 ;; c2" := (bind c1 (fun x => c2))
  (at level 61, c1 at next level, right associativity) : js_scope.
Notation "c1 ;; c2" := (bind c1 (fun _ => c2))
  (at level 61, right associativity) : js_scope.
Open Scope js_scope.

Definition trace {A} (m : M A) : list Event := fst m.
Definition outcome {A} (m : M A) : Exn + A := snd m.

Definition returns {A} (m : M A) : bool :=
  match outcome m with inr _ => true | inl _ => false end.

(* ===================================================================== *)
(** ** The underlying host input                                          *)
(* ===================================================================== *)

(** What calling a method of a host object does. *)
Inductive Behaviour : Type :=
| Returns (v : JsValue)
| Throws (e : Exn).

(** The object a ref to a rendered text input holds. A method may be
    absent ([None]): the wrapper guards [clear] and [setNativeProps] with
    an optional call. *)
Record TextInput : Type := mkTextInput {
  ti_id : nat;
  ti_focus : option Behaviour;
  ti_clear : option Behaviour;
  ti_isFocused : option Behaviour;
  ti_setNativeProps : option Behaviour
}.

Definition run_behaviour (b : Behaviour) : M JsValue :=
  match b with
  | Returns v => ret v
  | Throws e => throw e
  end.

(** [obj.m(args)] on a host object: calling a property that is not a
    function throws. *)
Definition invoke (impl : option Behaviour) (name : string) : M JsValue :=
  match impl with
  | Some b => run_behaviour b
  | None => throw ("TypeError: " ++ name ++ " is not a function")%string
  end.

(** [obj.m(args)] from inside a wrapper, recording the call that reaches
    the underlying input. *)
Definition call_method (t : TextInput) (m : Method)
    (impl : option Behaviour) (name : string) : M JsValue :=
  match impl with
  | Some b => emit (HostCall (ti_id t) m) ;; run_behaviour b
  | None => throw ("TypeError: " ++ name ++ " is not a function")%string
  end.

(** [obj.m?.(args)]: an absent method yields [undefined]. *)
Definition call_method_opt (t : TextInput) (m : Method)
    (impl : option Behaviour) : M JsValue :=
  match impl with
  | Some b => emit (HostCall (ti_id t) m) ;; run_behaviour b
  | None => ret JsUndefined
  end.

(** [ref.current?.(...)]: a null ref short-circuits to [undefined]. *)
Definition opt_chain {T} (cur : option T) (k : T -> M JsValue) : M JsValue :=
  match cur with
  | Some t => k t
  | None => ret JsUndefined
  end.

(* ===================================================================== *)
(** ** The child wrapper component                                        *)
(* ===================================================================== *)

Module NativeTextInput.

(** The object built by [useImperativeHandle]: its methods close over
    [textInputRef] and [isNativeAvailable]. *)
Record ExtendedTextInputHandle : Type := mkHandle {
  textInputRef : option TextInput;
  isNativeAvailable : bool
}.

(** [focus: () => textInputRef.current?.focus()] *)
Definition focus (h : ExtendedTextInputHandle) : M JsValue :=
  opt_chain (textInputRef h)
    (fun t => call_method t MFocus (ti_focus t) "focus").

(** [clear: () => textInputRef.current?.clear?.() ||
                 textInputRef.current?.setNativeProps?.({ text: '' })] *)
Definition clear (h : ExtendedTextInputHandle) : M JsValue :=
  v <- opt_chain (textInputRef h)
         (fun t => call_method_opt t MClear (ti_clear t)) ;;
  if truthy v then ret v
  else opt_chain (textInputRef h)
         (fun t => call_method_opt t (MSetNativeProps "")
                     (ti_setNativeProps t)).

(** [isFocused: () => textInputRef.current?.isFocused() ?? false] *)
Definition isFocused (h : ExtendedTextInputHandle) : M JsValue :=
  v <- opt_chain (textInputRef h)
         (fun t => call_method t MIsFocused (ti_isFocused t) "isFocused") ;;
  if nullish v then ret (JsBool false) else ret v.

(** [isNativeComponentAvailable: () => isNativeAvailable] *)
Definition isNativeComponentAvailable (h : ExtendedTextInputHandle)
  : M JsValue :=
  ret (JsBool (isNativeAvailable h)).

(** The callbacks [App] passes as [onNativeStatusChange]: the setters of
    its two availability states. A state setter keeps its identity
    across renders. *)
Inductive StatusCallback : Type :=
| setIsLegacyNativeAvailable
| setIsFabricNativeAvailable.

Definition call_status (f : StatusCallback) (v : bool) : M unit :=
  match f with
  | setIsLegacyNativeAvailable => emit (SetIsLegacyNativeAvailable v)
  | setIsFabricNativeAvailable => emit (SetIsFabricNativeAvailable v)
  end.

Definition StatusCallback_eqb (f g : StatusCallback) : bool :=
  match f, g with
  | setIsLegacyNativeAvailable, setIsLegacyNativeAvailable => true
  | setIsFabricNativeAvailable, setIsFabricNativeAvailable => true
  | _, _ => false
  end.

(** The dependency array [[isNativeAvailable, onNativeStatusChange]]. *)
Definition Deps : Type := (bool * option StatusCallback)%type.

Definition Deps_eqb (d e : Deps) : bool :=
  Bool.eqb (fst d) (fst e) &&
  match snd d, snd e with
  | Some f, Some g => StatusCallback_eqb f g
  | None, None => true
  | _, _ => false
  end.

(** [React.useEffect(effect, deps)]: the effect runs after the first
    render of an instance and after a render whose dependencies differ
    from those of the previous render. [prev] is [None] for a freshly
    mounted instance. *)
Definition useEffect (prev : option Deps) (deps : Deps) (effect : M unit)
  : M (option Deps) :=
  match prev with
  | Some d => if Deps_eqb d deps then ret (Some d)
              else effect ;; ret (Some deps)
  | None => effect ;; ret (Some deps)
  end.

(** The effect of one render of the wrapper:
    [useEffect(() => { onNativeStatusChange?.(isNativeAvailable) },
               [isNativeAvailable, onNativeStatusChange])]
    where [isNativeAvailable] is [NativeTextInputComponent !== null]. *)
Definition render_effect (nativeComponentFound : bool)
    (onNativeStatusChange : option StatusCallback)
    (prev : option Deps) : M (option Deps) :=
  let isNativeAvailable := nativeComponentFound in
  useEffect prev (isNativeAvailable, onNativeStatusChange)
    (match onNativeStatusChange with
     | Some f => call_status f isNativeAvailable
     | None => ret tt
     end).

End NativeTextInput.

(* ===================================================================== *)
(** ** The parent component                                               *)
(* ===================================================================== *)

Module App.

Import NativeTextInput.

(** The values one render of [App] sees: its four states and the
    current contents of its four refs. *)
Record State : Type := mkState {
  legacyText : string;
  fabricText : string;
  isLegacyNativeAvailable : bool;
  isFabricNativeAvailable : bool;
  legacyInputRef : option ExtendedTextInputHandle;
  fabricInputRef : option ExtendedTextInputHandle;
  legacyFallbackRef : option TextInput;
  fabricFallbackRef : option TextInput
}.

(** The first render: [useState('')], [useState(true)], [useRef(null)]. *)
Definition initial : State :=
  mkState "" "" true true None None None None.

(** [ref.current?.focus()] on a wrapper ref. *)
Definition focus_primary (s : Slot)
    (cur : option ExtendedTextInputHandle) : M unit :=
  match cur with
  | Some h => emit (HandleCall s Primary MFocus) ;;
              _ <- NativeTextInput.focus h ;; ret tt
  | None => ret tt
  end.

(** [ref.current?.focus()] on a fallback [TextInput] ref. *)
Definition focus_fallback (s : Slot) (cur : option TextInput) : M unit :=
  match cur with
  | Some t => emit (HandleCall s Fallback MFocus) ;;
              _ <- invoke (ti_focus t) "focus" ;; ret tt
  | None => ret tt
  end.

(** [ref.current.clear()] on a wrapper held by a ref. *)
Definition clear_primary (s : Slot) (h : ExtendedTextInputHandle)
  : M unit :=
  emit (HandleCall s Primary MClear) ;;
  _ <- NativeTextInput.clear h ;; ret tt.

(** [ref.current.clear()] on a fallback [TextInput] held by a ref. *)
Definition clear_fallback (s : Slot) (t : TextInput) : M unit :=
  emit (HandleCall s Fallback MClear) ;;
  _ <- invoke (ti_clear t) "clear" ;; ret tt.

(** [handleLegacyChange] *)
Definition handleLegacyChange (app : State) (text : string) : M unit :=
  emit (SetLegacyText text) ;;
  if (text =? "") && negb (fabricText app =? "") then
    if isFabricNativeAvailable app
    then focus_primary Fabric (fabricInputRef app)
    else focus_fallback Fabric (fabricFallbackRef app)
  else ret tt.

(** [handleFabricChange] *)
Definition handleFabricChange (app : State) (text : string) : M unit :=
  emit (SetFabricText text) ;;
  if (text =? "") && negb (legacyText app =? "") then
    if isLegacyNativeAvailable app
    then focus_primary Legacy (legacyInputRef app)
    else focus_fallback Legacy (legacyFallbackRef app)
  else ret tt.

(** [generateText] *)
Definition generateText (app : State) : M unit :=
  let sampleText := "Hello Native Components!" in
  emit (SetLegacyText sampleText) ;;
  emit (SetFabricText sampleText).

(** The first [if ... else if ...] of [clearInputs]. *)
Definition clearLegacy (app : State) : M unit :=
  match isLegacyNativeAvailable app, legacyInputRef app with
  | true, Some h =>
      try_catch (clear_primary Legacy h)
        (fun e => emit (ConsoleWarn "Legacy clear failed:" e))
  | _, _ =>
      match legacyFallbackRef app with
      | Some t => clear_fallback Legacy t
      | None => ret tt
      end
  end.

(** The second [if ... else if ...] of [clearInputs]. *)
Definition clearFabric (app : State) : M unit :=
  match isFabricNativeAvailable app, fabricInputRef app with
  | true, Some h =>
      try_catch (clear_primary Fabric h)
        (fun e => emit (ConsoleWarn "Fabric clear failed:" e))
  | _, _ =>
      match fabricFallbackRef app with
      | Some t => clear_fallback Fabric t
      | None => ret tt
      end
  end.

(** [clearInputs] *)
Definition clearInputs (app : State) : M unit :=
  emit (SetLegacyText "") ;;
  emit (SetFabricText "") ;;
  clearLegacy app ;;
  clearFabric app ;;
  emit (SetTimeout (FocusLegacy (isLegacyNativeAvailable app)) 100).

(** The body of the closure passed to [setTimeout]. [app] supplies the
    contents of the refs at the time the timer fires. *)
Definition run_callback (cb : Callback) (app : State) : M unit :=
  match cb with
  | FocusLegacy captured =>
      if captured
      then focus_primary Legacy (legacyInputRef app)
      else focus_fallback Legacy (legacyFallbackRef app)
  end.

(** *** State updates *)

(** The effect of one event on the values the next render sees. *)
Definition apply_event (app : State) (ev : Event) : State :=
  match ev with
  | SetLegacyText t =>
      mkState t (fabricText app)
        (isLegacyNativeAvailable app) (isFabricNativeAvailable app)
        (legacyInputRef app) (fabricInputRef app)
        (legacyFallbackRef app) (fabricFallbackRef app)
  | SetFabricText t =>
      mkState (legacyText app) t
        (isLegacyNativeAvailable app) (isFabricNativeAvailable app)
        (legacyInputRef app) (fabricInputRef app)
        (legacyFallbackRef app) (fabricFallbackRef app)
  | SetIsLegacyNativeAvailable v =>
      mkState (legacyText app) (fabricText app)
        v (isFabricNativeAvailable app)
        (legacyInputRef app) (fabricInputRef app)
        (legacyFallbackRef app) (fabricFallbackRef app)
  | SetIsFabricNativeAvailable v =>
      mkState (legacyText app) (fabricText app)
        (isLegacyNativeAvailable app) v
        (legacyInputRef app) (fabricInputRef app)
        (legacyFallbackRef app) (fabricFallbackRef app)
  | _ => app
  end.

(** The state updates queued by a handler are applied whether or not
    the handler went on to throw. *)
Definition commit (app : State) (tr : list Event) : State :=
  fold_left apply_event tr app.

(** The timers a run left pending. *)
Fixpoint scheduled (tr : list Event) : list (Callback * nat) :=
  match tr with
  | [] => []
  | SetTimeout cb ms :: tr' => (cb, ms) :: scheduled tr'
  | _ :: tr' => scheduled tr'
  end.

(** React detaches the refs of a component that unmounts: both refs of
    the slot hold [null] afterwards. *)
Definition unregister_slot (s : Slot) (app : State) : State :=
  match s with
  | Legacy =>
      mkState (legacyText app) (fabricText app)
        (isLegacyNativeAvailable app) (isFabricNativeAvailable app)
        None (fabricInputRef app) None (fabricFallbackRef app)
  | Fabric =>
      mkState (legacyText app) (fabricText app)
        (isLegacyNativeAvailable app) (isFabricNativeAvailable app)
        (legacyInputRef app) None (legacyFallbackRef app) None
  end.

(** *** The coordinator's view of the component *)

Definition other (s : Slot) : Slot :=
  match s with Legacy => Fabric | Fabric => Legacy end.

Definition currentText (app : State) (s : Slot) : string :=
  match s with Legacy => legacyText app | Fabric => fabricText app end.

Definition nativeAvailable (app : State) (s : Slot) : bool :=
  match s with
  | Legacy => isLegacyNativeAvailable app
  | Fabric => isFabricNativeAvailable app
  end.

(** The tri-state of the specification. *)
Inductive Availability : Type := unknown | available | unavailable.

Definition of_bool (v : bool) : Availability :=
  if v then available else unavailable.

Definition is_available (app : State) (s : Slot) : Availability :=
  of_bool (nativeAvailable app s).

(** The handle the parent renders for a slot. *)
Definition activeKind (app : State) (s : Slot) : HandleKind :=
  if nativeAvailable app s then Primary else Fallback.

Definition held {T} (cur : option T) : bool :=
  match cur with Some _ => true | None => false end.

Definition mounted (app : State) (s : Slot) (k : HandleKind) : bool :=
  match s, k with
  | Legacy, Primary => held (legacyInputRef app)
  | Legacy, Fallback => held (legacyFallbackRef app)
  | Fabric, Primary => held (fabricInputRef app)
  | Fabric, Fallback => held (fabricFallbackRef app)
  end.

(** A slot is registered when the handle the parent renders for it is
    held by its ref. *)
Definition registered (app : State) (s : Slot) : Prop :=
  mounted app s (activeKind app s) = true.

Definition on_text_changed (app : State) (s : Slot) (text : string)
  : M unit :=
  match s with
  | Legacy => handleLegacyChange app text
  | Fabric => handleFabricChange app text
  end.

Definition clear_all : State -> M unit := clearInputs.

Definition is_focus (ev : Event) : bool :=
  match ev with HandleCall _ _ MFocus => true | _ => false end.

Definition is_clear (ev : Event) : bool :=
  match ev with HandleCall _ _ MClear => true | _ => false end.

Definition is_notification (ev : Event) : bool :=
  match ev with
  | SetIsLegacyNativeAvailable _ | SetIsFabricNativeAvailable _ => true
  | _ => false
  end.

Definition is_report_for (s : Slot) (ev : Event) : bool :=
  match s, ev with
  | Legacy, SetIsLegacyNativeAvailable _ => true
  | Fabric, SetIsFabricNativeAvailable _ => true
  | _, _ => false
  end.

Definition through_slot (s : Slot) (ev : Event) : bool :=
  match ev, s with
  | HandleCall Legacy _ _, Legacy => true
  | HandleCall Fabric _ _, Fabric => true
  | _, _ => false
  end.

(** The focus commands of a run, in order. *)
Definition focus_commands (tr : list Event) : list Event :=
  filter is_focus tr.

Definition clear_commands (tr : list Event) : list Event :=
  filter is_clear tr.

(** The callback [App] passes to the wrapper of a slot. *)
Definition statusCallback (s : Slot) : StatusCallback :=
  match s with
  | Legacy => setIsLegacyNativeAvailable
  | Fabric => setIsFabricNativeAvailable
  end.

(** One render of the wrapper of slot [s] inside [App]: the spec's
    [report_availability(s, v)], where [v] says whether the native
    component was found. *)
Definition report_availability (s : Slot) (v : bool)
    (prev : option Deps) : M (option Deps) :=
  render_effect v (Some (statusCallback s)) prev.

End App.

Import NativeTextInput App.

(* ===================================================================== *)
(** ** Concrete objects used in the examples                              *)
(* ===================================================================== *)

(** A text input whose methods all return. *)
Definition quietInput (id : nat) : TextInput :=
  mkTextInput id (Some (Returns JsUndefined)) (Some (Returns JsUndefined))
    (Some (Returns (JsBool false))) (Some (Returns JsUndefined)).

(** A text input whose [clear] throws. *)
Definition clearThrowingInput (id : nat) : TextInput :=
  mkTextInput id (Some (Returns JsUndefined)) (Some (Throws "clear failed"))
    (Some (Returns (JsBool false))) (Some (Returns JsUndefined)).

(** A text input whose [focus] throws. *)
Definition focusThrowingInput (id : nat) : TextInput :=
  mkTextInput id (Some (Throws "focus failed")) (Some (Returns JsUndefined))
    (Some (Returns (JsBool false))) (Some (Returns JsUndefined)).

(** A host view without [clear], as a native view manager exposes it. *)
Definition hostViewWithoutClear (id : nat) : TextInput :=
  mkTextInput id (Some (Returns JsUndefined)) None None
    (Some (Returns JsUndefined)).

(** Both native components found and mounted, both texts typed. *)
Definition bothNative : State :=
  mkState "hello" "world" true true
    (Some (mkHandle (Some (quietInput 1)) true))
    (Some (mkHandle (Some (quietInput 2)) true))
    None None.

(** Both native wrappers mounted; the legacy native [clear] throws. *)
Definition legacyClearThrows : State :=
  mkState "hello" "world" true true
    (Some (mkHandle (Some (clearThrowingInput 1)) true))
    (Some (mkHandle (Some (quietInput 2)) true))
    None None.

(** The legacy slot runs on its JavaScript fallback, whose [clear]
    throws; the fabric slot runs on its native wrapper. *)
Definition legacyFallbackClearThrows : State :=
  mkState "hello" "world" false true
    None
    (Some (mkHandle (Some (quietInput 2)) true))
    (Some (clearThrowingInput 3))
    None.

(** The fabric native [focus] throws. *)
Definition fabricFocusThrows : State :=
  mkState "hello" "world" true true
    (Some (mkHandle (Some (quietInput 1)) true))
    (Some (mkHandle (Some (focusThrowingInput 2)) true))
    None None.

(** The first render after mounting: nothing typed, nothing reported. *)
Definition justMounted : State :=
  mkState "" "" true true
    (Some (mkHandle (Some (quietInput 1)) true))
    (Some (mkHandle (Some (quietInput 2)) true))
    None None.

(** The focus command of the handler for the handle rendered for [s]. *)
Definition focus_slot (app : State) (s : Slot) : M unit :=
  match s with
  | Legacy => if isLegacyNativeAvailable app
              then focus_primary Legacy (legacyInputRef app)
              else focus_fallback Legacy (legacyFallbackRef app)
  | Fabric => if isFabricNativeAvailable app
              then focus_primary Fabric (fabricInputRef app)
              else focus_fallback Fabric (fabricFallbackRef app)
  end.

(** [report_availability(s, v)] issued twice in a row by the same mounted
    wrapper. *)
Definition report_twice (s : Slot) (v : bool) : M (option Deps) :=
  d <- report_availability s v None ;;
  report_availability s v d.

(** The event by which the wrapper of [s] notifies [App]. *)
Definition notification (s : Slot) (v : bool) : Event :=
  match s with
  | Legacy => SetIsLegacyNativeAvailable v
  | Fabric => SetIsFabricNativeAvailable v
  end.

(** The calls a wrapper makes on its underlying input. *)
Definition is_host_call (ev : Event) : bool :=
  match ev with HostCall _ _ => true | _ => false end.

(** What a [catch] block of [clearInputs] logs for the outcome of the
    guarded call. *)
Definition warning {A} (msg : string) (o : Exn + A) : list Event :=
  match o with
  | inl e => [ConsoleWarn msg e]
  | inr _ => []
  end.

(** The events of [try { ref.current.clear() } catch (e) { warn }] on a
    wrapper [h] of slot [s]. *)
Definition guarded_clear_trace (s : Slot) (msg : string)
    (h : ExtendedTextInputHandle) : list Event :=
  HandleCall s Primary MClear ::
  trace (NativeTextInput.clear h) ++
  warning msg (outcome (NativeTextInput.clear h)).

(** Calls, as opposed to state updates, warnings and timers. *)
Definition is_call (ev : Event) : bool :=
  match ev with HandleCall _ _ _ | HostCall _ _ => true | _ => false end.

(** The state update of [on_text_changed (s, text)]. *)
Definition setText (s : Slot) (text : string) : Event :=
  match s with
  | Legacy => SetLegacyText text
  | Fabric => SetFabricText text
  end.

(* ===================================================================== *)
(** ** Rendering and the mount protocol                                   *)
(* ===================================================================== *)

(** What [App] returns for the input of a slot:
    [isXNativeAvailable ? <XNativeTextInput value={xText} ... />
                        : <TextInput value={xText} ... />]. *)
Inductive Rendered : Type :=
| NativeWrapper (value : string)
| FallbackTextInput (value : string).

Definition render_slot (app : State) (s : Slot) : Rendered :=
  match s with
  | Legacy => if isLegacyNativeAvailable app
              then NativeWrapper (legacyText app)
              else FallbackTextInput (legacyText app)
  | Fabric => if isFabricNativeAvailable app
              then NativeWrapper (fabricText app)
              else FallbackTextInput (fabricText app)
  end.

(** What the wrapper returns: [null] when [requireNativeComponent] threw
    at load time, the native component with the props otherwise. *)
Definition wrapper_render (nativeComponentFound : bool) (value : string)
  : option string :=
  if nativeComponentFound then Some value else None.

(** The handle a mounted wrapper exposes: its inner ref points to the
    native view exactly when the wrapper rendered one. *)
Definition wrapper_handle (nativeComponentFound : bool) (view : TextInput)
  : ExtendedTextInputHandle :=
  mkHandle (if nativeComponentFound then Some view else None)
    nativeComponentFound.

(** What the user sees at the position of a slot. *)
Inductive Screen : Type :=
| NativeView (value : string)
| JsTextInput (value : string)
| Nothing.

Definition on_screen (found : Slot -> bool) (app : State) (s : Slot)
  : Screen :=
  match render_slot app s with
  | NativeWrapper v =>
      match wrapper_render (found s) v with
      | Some v' => NativeView v'
      | None => Nothing
      end
  | FallbackTextInput v => JsTextInput v
  end.

(** The running application: the state of [App], the dependencies the
    effect of each mounted wrapper saw last, and the pending timers. *)
Record System : Type := mkSystem {
  sys_app : State;
  sys_deps : Slot -> option Deps;
  sys_timers : list (Callback * nat)
}.

(** What can happen to the running application. *)
Inductive Action : Type :=
| ChangeText (s : Slot) (text : string)  (* [onChangeText] of a slot *)
| PressGenerate
| PressClear
| FireTimer                              (* the oldest pending timer *)
| RunEffects                             (* effects after a render *)
| SetRefs (lp fp : option ExtendedTextInputHandle)
          (lf ff : option TextInput).    (* React attaches or detaches *)

Definition run_handler (sys : System) (m : M unit) : System :=
  mkSystem (commit (sys_app sys) (trace m)) (sys_deps sys)
    (sys_timers sys ++ scheduled (trace m)).

(** The effect of the wrapper of [s], which only exists while [App]
    renders the wrapper. *)
Definition slot_effect (found : Slot -> bool) (sys : System) (s : Slot)
  : M (option Deps) :=
  if nativeAvailable (sys_app sys) s
  then report_availability s (found s) (sys_deps sys s)
  else ret None.

Definition deps_after (m : M (option Deps)) (old : option Deps)
  : option Deps :=
  match outcome m with
  | inr d => d
  | inl _ => old
  end.

Definition run_effects (found : Slot -> bool) (sys : System) : System :=
  let rL := slot_effect found sys Legacy in
  let rF := slot_effect found sys Fabric in
  mkSystem (commit (sys_app sys) (trace rL ++ trace rF))
    (fun s => match s with
              | Legacy => deps_after rL (sys_deps sys Legacy)
              | Fabric => deps_after rF (sys_deps sys Fabric)
              end)
    (sys_timers sys).

Definition set_refs (app : State)
    (lp fp : option ExtendedTextInputHandle) (lf ff : option TextInput)
  : State :=
  mkState (legacyText app) (fabricText app)
    (isLegacyNativeAvailable app) (isFabricNativeAvailable app)
    lp fp lf ff.

Definition step (found : Slot -> bool) (sys : System) (a : Action)
  : System :=
  match a with
  | ChangeText s text =>
      run_handler sys (on_text_changed (sys_app sys) s text)
  | PressGenerate => run_handler sys (generateText (sys_app sys))
  | PressClear => run_handler sys (clearInputs (sys_app sys))
  | FireTimer =>
      match sys_timers sys with
      | [] => sys
      | (cb, _) :: rest =>
          run_handler (mkSystem (sys_app sys) (sys_deps sys) rest)
            (run_callback cb (sys_app sys))
      end
  | RunEffects => run_effects found sys
  | SetRefs lp fp lf ff =>
      mkSystem (set_refs (sys_app sys) lp fp lf ff) (sys_deps sys)
        (sys_timers sys)
  end.

Definition run (found : Slot -> bool) (sys : System) (actions : list Action)
  : System :=
  fold_left (step found) actions sys.

(** The application after its first render and the effects of that
    render. *)
Definition mounted_system (found : Slot -> bool) : System :=
  run_effects found (mkSystem initial (fun _ => None) []).

(* ===================================================================== *)
(** ** Change events, from the native view to [App]                       *)
(* ===================================================================== *)

(** [event.nativeEvent] of an [onChangeText] event. The timestamp, when
    present, is a whole number of milliseconds. *)
Record NativeTextInputChangeEvent : Type := mkChange {
  ev_text : string;
  ev_timestamp : option Z
}.

(** [if (timestamp)] *)
Definition timestamp_truthy (ts : option Z) : bool :=
  match ts with
  | Some t => negb (t =? 0)%Z
  | None => false
  end.

(** A line written by [console.log]:
    [`Fabric Event: Text changed at ${timestamp}ms`]. *)
Inductive ConsoleLine : Type :=
| FabricTextChangedAt (timestamp : Z).

Module LegacyWrapper.

(** [handleChangeText] of specs/LegacyRCTViewManager/NativeTextInput.tsx:
    [onChangeText?.(event.nativeEvent.text)]. *)
Definition handleChangeText (onChangeText : option (string -> M unit))
    (event : NativeTextInputChangeEvent) : M unit :=
  match onChangeText with
  | Some f => f (ev_text event)
  | None => ret tt
  end.

End LegacyWrapper.

Module FabricWrapper.

(** [handleChangeText] of specs/JSINewArchitecture/NativeTextInput.tsx.
    The console output is kept apart from the events of [App]. *)
Definition handleChangeText (onChangeText : option (string -> M unit))
    (event : NativeTextInputChangeEvent) : list ConsoleLine * M unit :=
  let text := ev_text event in
  let timestamp := ev_timestamp event in
  ((if timestamp_truthy timestamp
    then match timestamp with
         | Some t => [FabricTextChangedAt t]
         | None => []
         end
    else []),
   match onChangeText with
   | Some f => f text
   | None => ret tt
   end).

End FabricWrapper.

(** The [onChangeText] prop [App] gives to the input of a slot. *)
Definition onChangeText_prop (app : State) (s : Slot) : string -> M unit :=
  match s with
  | Legacy => handleLegacyChange app
  | Fabric => handleFabricChange app
  end.

(** An event handed to [RCTEventEmitter.receiveEvent (id, name, map)]. *)
Record ReceivedEvent : Type := mkReceived {
  re_viewId : nat;
  re_name : string;
  re_text : option string;
  re_timestamp : option Z
}.

(** The [nativeEvent] a received change event carries to the wrapper. *)
Definition nativeEvent (e : ReceivedEvent) : option NativeTextInputChangeEvent :=
  if (re_name e =? "onChangeText")%string
  then match re_text e with
       | Some t => Some (mkChange t (re_timestamp e))
       | None => None
       end
  else None.

(** An Android [EditText]: its view id, its text and its hint. *)
Record EditText : Type := mkEditText {
  et_id : nat;
  et_text : string;
  et_hint : string
}.

Module AndroidLegacy.

(** [NativeTextInputView.onTextChanged] *)
Definition onTextChanged (v : EditText) (text : string)
  : list ReceivedEvent :=
  [mkReceived (et_id v) "onChangeText" (Some text) None].

(** The [TextWatcher]: [onTextChanged(s?.toString() ?: "")]. *)
Definition afterTextChanged (v : EditText) (s : option string)
  : list ReceivedEvent :=
  onTextChanged v (match s with Some x => x | None => "" end).

(** [EditText.setText]: the text is replaced and the watcher runs. *)
Definition setText (v : EditText) (value : string)
  : EditText * list ReceivedEvent :=
  let v' := mkEditText (et_id v) value (et_hint v) in
  (v', afterTextChanged v' (Some value)).

(** [NativeTextInputView.setValue] *)
Definition view_setValue (v : EditText) (value : string)
  : EditText * list ReceivedEvent :=
  if negb (et_text v =? value)%string then setText v value else (v, []).

(** [NativeTextInputManager.setValue]: [view.setValue(value ?: "")]. *)
Definition setValue (v : EditText) (value : option string)
  : EditText * list ReceivedEvent :=
  view_setValue v (match value with Some x => x | None => "" end).

(** [NativeTextInputManager.setPlaceholder] through
    [NativeTextInputView.setPlaceholder]. *)
Definition setPlaceholder (v : EditText) (placeholder : option string)
  : EditText :=
  mkEditText (et_id v) (et_text v)
    (match placeholder with Some x => x | None => "" end).

(** [getExportedCustomDirectEventTypeConstants]: the registered names. *)
Definition exportedEvents : list string := ["onChangeText"].

End AndroidLegacy.

Module AndroidFabric.

(** [FabricNativeTextInputView.sendChangeEvent]; [now] is
    [System.currentTimeMillis()]. *)
Definition sendChangeEvent (now : Z) (v : EditText) : list ReceivedEvent :=
  [mkReceived (et_id v) "onChangeText" (Some (et_text v)) (Some now)].

Definition sendFocusEvent (v : EditText) : list ReceivedEvent :=
  [mkReceived (et_id v) "onFabricFocus" None None].

Definition sendBlurEvent (v : EditText) : list ReceivedEvent :=
  [mkReceived (et_id v) "onFabricBlur" None None].

(** The focus change listener. *)
Definition onFocusChange (v : EditText) (hasFocus : bool)
  : list ReceivedEvent :=
  if hasFocus then sendFocusEvent v else sendBlurEvent v.

(** [EditText.setText]: the text is replaced and the watcher runs. *)
Definition setText (now : Z) (v : EditText) (value : string)
  : EditText * list ReceivedEvent :=
  let v' := mkEditText (et_id v) value (et_hint v) in
  (v', sendChangeEvent now v').

(** [FabricNativeTextInputManager.setValue]:
    [view.setText(value ?: "")]. *)
Definition setValue (now : Z) (v : EditText) (value : option string)
  : EditText * list ReceivedEvent :=
  setText now v (match value with Some x => x | None => "" end).

(** [FabricNativeTextInputManager.setPlaceholder] *)
Definition setPlaceholder (v : EditText) (placeholder : option string)
  : EditText :=
  mkEditText (et_id v) (et_text v)
    (match placeholder with Some x => x | None => "" end).

(** [getExportedCustomBubblingEventTypeConstants]: the registered
    names. *)
Definition exportedEvents : list string :=
  ["onChangeText"; "onFabricFocus"; "onFabricBlur"].

End AndroidFabric.

(** What can happen to a native Android view. *)
Inductive ViewAction : Type :=
| PropValue (value : option string)   (* the [value] prop is set *)
| UserEdit (text : string)            (* the user changes the text *)
| FocusChange (hasFocus : bool).

Definition legacy_view_step (v : EditText) (a : ViewAction)
  : EditText * list ReceivedEvent :=
  match a with
  | PropValue value => AndroidLegacy.setValue v value
  | UserEdit text => AndroidLegacy.setText v text
  | FocusChange _ => (v, [])
  end.

Definition fabric_view_step (now : Z) (v : EditText) (a : ViewAction)
  : EditText * list ReceivedEvent :=
  match a with
  | PropValue value => AndroidFabric.setValue now v value
  | UserEdit text => AndroidFabric.setText now v text
  | FocusChange hasFocus => (v, AndroidFabric.onFocusChange v hasFocus)
  end.

(** The iOS views ([NativeTextInputView], [FabricNativeTextInputView]):
    the text of the [UITextField], which may be [nil], and whether an
    [onChangeText] block is set. *)
Record IosView : Type := mkIosView {
  textField_text : option string;
  onChangeText_set : bool
}.

(** [textFieldDidChange]:
    [guard let onChangeText = onChangeText else { return }]
    [onChangeText(["text": textField.text ?? ""])]. *)
Definition textFieldDidChange (v : IosView)
  : list NativeTextInputChangeEvent :=
  if onChangeText_set v
  then [mkChange (match textField_text v with Some t => t | None => "" end)
          None]
  else [].

(** The [value] property: [didSet { textField.text = value }]. *)
Definition ios_set_value (v : IosView) (value : string) : IosView :=
  mkIosView (Some value) (onChangeText_set v).

(** A received change event reaches [App] through the wrapper of the
    slot. *)
Definition deliver (app : State) (s : Slot) (e : ReceivedEvent)
  : list ConsoleLine * M unit :=
  match nativeEvent e with
  | Some ev =>
      match s with
      | Legacy =>
          ([], LegacyWrapper.handleChangeText
                 (Some (onChangeText_prop app Legacy)) ev)
      | Fabric =>
          FabricWrapper.handleChangeText
            (Some (onChangeText_prop app Fabric)) ev
      end
  | None => ([], ret tt)
  end.

Definition is_handle_call (ev : Event) : bool :=
  match ev with HandleCall _ _ _ => true | _ => false end.

Definition primaryRef (app : State) (s : Slot)
  : option ExtendedTextInputHandle :=
  match s with
  | Legacy => legacyInputRef app
  | Fabric => fabricInputRef app
  end.

Definition fallbackRef (app : State) (s : Slot) : option TextInput :=
  match s with
  | Legacy => legacyFallbackRef app
  | Fabric => fabricFallbackRef app
  end.

(** The state [clearInputs] leaves for the next render. *)
Definition cleared (app : State) : State :=
  mkState "" "" (isLegacyNativeAvailable app) (isFabricNativeAvailable app)
    (legacyInputRef app) (fabricInputRef app)
    (legacyFallbackRef app) (fabricFallbackRef app).

(** The legacy native [clear] throws, and the fabric slot runs on a
    JavaScript fallback whose [clear] throws too. *)
Definition legacyPrimaryFabricFallbackThrow : State :=
  mkState "hello" "world" true false
    (Some (mkHandle (Some (clearThrowingInput 1)) true))
    None
    None
    (Some (clearThrowingInput 3)).

(** The legacy slot runs on a quiet JavaScript fallback, and the fabric
    native [clear] throws. *)
Definition fabricPrimaryLegacyFallback : State :=
  mkState "hello" "world" false true
    None
    (Some (mkHandle (Some (clearThrowingInput 2)) true))
    (Some (quietInput 3))
    None.

(** The [setNativeProps({ text: '' })] call on an input that has the
    method. *)
Definition setNativeProps_call (t : TextInput) : list Event :=
  match ti_setNativeProps t with
  | Some _ => [HostCall (ti_id t) (MSetNativeProps "")]
  | None => []
  end.

(** The legacy slot on its JavaScript fallback, mounted. *)
Definition legacyOnFallback : State :=
  mkState "hello" "world" false true
    None
    (Some (mkHandle (Some (quietInput 2)) true))
    (Some (quietInput 3))
    None.

(** The events an [if ... else if ...] block of [clearInputs] can
    produce. *)
Definition clear_block_event (ev : Event) : bool :=
  match ev with
  | HandleCall _ _ MClear | HostCall _ _ | ConsoleWarn _ _ => true
  | _ => false
  end.

(** [value ?: ""] *)
Definition orEmpty (value : option string) : string :=
  match value with Some x => x | None => "" end.

(** The focus commands [App] issues when the received events of a view
    are delivered to the wrapper of slot [s]. *)
Definition focus_of_events (app : State) (s : Slot)
    (events : list ReceivedEvent) : list Event :=
  flat_map (fun e => focus_commands (trace (snd (deliver app s e)))) events.

(* ===================================================================== *)
(** ** Laws of the effect monad                                           *)
(* ===================================================================== *)

Section MonadLaws.
Context {A B : Type}.

Lemma trace_bind (m : M A) (k : A -> M B) :
  trace (bind m k) =
  trace m ++ match outcome m with
             | inr a => trace (k a)
             | inl _ => []
             end.
Proof.
  destruct m as [tr [e | a]]; cbn.
  - now rewrite app_nil_r.
  - now destruct (k a).
Qed.

Lemma outcome_bind (m : M A) (k : A -> M B) :
  outcome (bind m k) =
  match outcome m with
  | inr a => outcome (k a)
  | inl e => inl e
  end.
Proof.
  destruct m as [tr [e | a]]; cbn; [reflexivity | now destruct (k a)].
Qed.

Lemma trace_try_catch (m : M A) (h : Exn -> M A) :
  trace (try_catch m h) =
  trace m ++ match outcome m with
             | inl e => trace (h e)
             | inr _ => []
             end.
Proof.
  destruct m as [tr [e | a]]; cbn.
  - now destruct (h e).
  - now rewrite app_nil_r.
Qed.

Lemma outcome_try_catch (m : M A) (h : Exn -> M A) :
  outcome (try_catch m h) =
  match outcome m with
  | inl e => outcome (h e)
  | inr a => inr a
  end.
Proof.
  destruct m as [tr [e | a]]; cbn; [now destruct (h e) | reflexivity].
Qed.

End MonadLaws.

(* ===================================================================== *)
(** ** The wrapper's handle                                               *)
(* ===================================================================== *)

Lemma focus_only_host_calls (h : ExtendedTextInputHandle) :
  forallb is_host_call (trace (NativeTextInput.focus h)) = true.
Proof.
  destruct h as [[t |] na]; cbn; [| reflexivity].
  unfold call_method. destruct (ti_focus t) as [[v | e] |]; reflexivity.
Qed.

Lemma clear_only_host_calls (h : ExtendedTextInputHandle) :
  forallb is_host_call (trace (NativeTextInput.clear h)) = true.
Proof.
  destruct h as [[t |] na]; cbn; [| reflexivity].
  unfold NativeTextInput.clear, call_method_opt; cbn.
  destruct (ti_clear t) as [[v | e] |]; cbn; try reflexivity.
  - destruct (truthy v); cbn; [reflexivity |].
    destruct (ti_setNativeProps t) as [[w | e] |]; reflexivity.
  - destruct (ti_setNativeProps t) as [[w | e] |]; reflexivity.
Qed.

Lemma filter_host_calls (p : Event -> bool) (tr : list Event) :
  (forall id m, p (HostCall id m) = false) ->
  forallb is_host_call tr = true ->
  filter p tr = [].
Proof.
  intros Hp. induction tr as [| ev tr IH]; cbn; [reflexivity |].
  intros H. apply andb_true_iff in H as [Hev Htr].
  destruct ev; try discriminate. rewrite Hp. now apply IH.
Qed.

Lemma scheduled_host_calls (tr : list Event) :
  forallb is_host_call tr = true -> scheduled tr = [].
Proof.
  induction tr as [| ev tr IH]; cbn; [reflexivity |].
  intros H. apply andb_true_iff in H as [Hev Htr].
  destruct ev; try discriminate. now apply IH.
Qed.

(** With both methods on the underlying input and a falsy result of its
    [clear], the handle calls [clear()] and then
    [setNativeProps({ text: '' })]. *)
Lemma clear_with_both_methods (h : ExtendedTextInputHandle) (t : TextInput)
    (v : JsValue) (b : Behaviour) :
  textInputRef h = Some t ->
  ti_clear t = Some (Returns v) ->
  truthy v = false ->
  ti_setNativeProps t = Some b ->
  trace (NativeTextInput.clear h) =
  [HostCall (ti_id t) MClear; HostCall (ti_id t) (MSetNativeProps "")].
Proof.
  intros Href Hclear Hfalsy Hset.
  unfold NativeTextInput.clear. rewrite Href. cbn.
  unfold call_method_opt. rewrite Hclear, Hset. cbn.
  rewrite Hfalsy. destruct b; reflexivity.
Qed.

(** C9 (amended). On every mounted underlying input, [clear()] of the
    handle calls the underlying [clear()] when the input has one, and
    then [setNativeProps({ text: '' })] when the input has it and the
    underlying [clear] was absent or returned a falsy value. So an input
    with both methods whose [clear()] returns [undefined] receives both
    calls, and a host view without [clear] receives [setNativeProps]
    only. *)
Theorem C9_clear_calls_by_methods (h : ExtendedTextInputHandle)
    (t : TextInput) :
  textInputRef h = Some t ->
  trace (NativeTextInput.clear h) =
  match ti_clear t with
  | Some (Returns v) =>
      HostCall (ti_id t) MClear ::
      (if truthy v then [] else setNativeProps_call t)
  | Some (Throws _) => [HostCall (ti_id t) MClear]
  | None => setNativeProps_call t
  end.
Proof.
  intros Href. unfold NativeTextInput.clear, setNativeProps_call.
  rewrite Href. cbn [opt_chain]. unfold call_method_opt.
  destruct (ti_clear t) as [[v | e] |],
           (ti_setNativeProps t) as [[w | e'] |];
    cbn; try (destruct (truthy v); cbn); reflexivity.
Qed.

Lemma C9_clear_calls_by_methods_witness :
  trace (NativeTextInput.clear (mkHandle (Some (quietInput 1)) true)) =
    [HostCall 1 MClear; HostCall 1 (MSetNativeProps "")] /\
  trace (NativeTextInput.clear
           (mkHandle (Some (hostViewWithoutClear 4)) true)) =
    [HostCall 4 (MSetNativeProps "")].
Proof.
  split.
  - apply (C9_clear_calls_by_methods (mkHandle (Some (quietInput 1)) true)
             (quietInput 1)).
    reflexivity.
  - apply (C9_clear_calls_by_methods
             (mkHandle (Some (hostViewWithoutClear 4)) true)
             (hostViewWithoutClear 4)).
    reflexivity.
Defined.

(** C9, as stated, fails: the view a wrapper mounts, a native host view,
    has no [clear]; [clear()] of the handle then makes the
    [setNativeProps] call only. *)
Lemma C9_host_view_not_cleared :
  ~ (forall (h : ExtendedTextInputHandle) (t : TextInput),
        textInputRef h = Some t ->
        In (HostCall (ti_id t) MClear) (trace (NativeTextInput.clear h)) /\
        In (HostCall (ti_id t) (MSetNativeProps ""))
           (trace (NativeTextInput.clear h))).
Proof.
  intros H.
  destruct (H (mkHandle (Some (hostViewWithoutClear 4)) true)
              (hostViewWithoutClear 4) eq_refl) as [Hclear _].
  cbn in Hclear. destruct Hclear as [Hc | []]. discriminate Hc.
Qed.

(** An underlying view without [clear] only receives [setNativeProps]. *)
Lemma clear_without_underlying_clear (h : ExtendedTextInputHandle)
    (t : TextInput) (b : Behaviour) :
  textInputRef h = Some t ->
  ti_clear t = None ->
  ti_setNativeProps t = Some b ->
  trace (NativeTextInput.clear h) = [HostCall (ti_id t) (MSetNativeProps "")].
Proof.
  intros Href Hclear Hset.
  unfold NativeTextInput.clear. rewrite Href. cbn.
  unfold call_method_opt. rewrite Hclear, Hset. cbn.
  destruct b; reflexivity.
Qed.

Example clear_on_host_view :
  trace (NativeTextInput.clear (mkHandle (Some (hostViewWithoutClear 4)) true))
  = [HostCall 4 (MSetNativeProps "")].
Proof. reflexivity. Qed.

(** An underlying [clear] that throws ends the call before
    [setNativeProps]. *)
Lemma clear_underlying_throws (h : ExtendedTextInputHandle)
    (t : TextInput) (e : Exn) :
  textInputRef h = Some t ->
  ti_clear t = Some (Throws e) ->
  NativeTextInput.clear h = ([HostCall (ti_id t) MClear], inl e).
Proof.
  intros Href Hclear.
  unfold NativeTextInput.clear. rewrite Href. cbn.
  unfold call_method_opt. rewrite Hclear. reflexivity.
Qed.

(** C10. With a null underlying ref every method of the handle returns
    without calling anything: [focus()] and [clear()] yield [undefined],
    [isFocused()] yields [false]. *)
Theorem C10_unmounted_handle_total (na : bool) :
  let h := mkHandle None na in
  NativeTextInput.focus h = ret JsUndefined /\
  NativeTextInput.clear h = ret JsUndefined /\
  NativeTextInput.isFocused h = ret (JsBool false) /\
  NativeTextInput.isNativeComponentAvailable h = ret (JsBool na).
Proof.
  cbn. repeat split; reflexivity.
Qed.

(* ===================================================================== *)
(** ** Focus commands of the change handlers                              *)
(* ===================================================================== *)

Lemma trace_focus_primary (s : Slot) (h : ExtendedTextInputHandle) :
  trace (focus_primary s (Some h)) =
  HandleCall s Primary MFocus :: trace (NativeTextInput.focus h).
Proof.
  unfold focus_primary. rewrite trace_bind. cbn.
  rewrite trace_bind. destruct (outcome (NativeTextInput.focus h));
    cbn; now rewrite app_nil_r.
Qed.

Lemma trace_focus_fallback (s : Slot) (t : TextInput) :
  trace (focus_fallback s (Some t)) = [HandleCall s Fallback MFocus].
Proof.
  unfold focus_fallback, invoke.
  destruct (ti_focus t) as [[v | e] |]; reflexivity.
Qed.

(** Both handlers are one rule, read at the other slot. *)
Lemma on_text_changed_rule (app : State) (s : Slot) (text : string) :
  on_text_changed app s text =
  (emit (setText s text) ;;
   if (text =? "") && negb (currentText app (other s) =? "")
   then focus_slot app (other s)
   else ret tt).
Proof. destruct s; reflexivity. Qed.

Lemma focus_commands_primary (s : Slot) (h : ExtendedTextInputHandle) :
  focus_commands (trace (focus_primary s (Some h))) =
  [HandleCall s Primary MFocus].
Proof.
  rewrite trace_focus_primary. unfold focus_commands.
  change (HandleCall s Primary MFocus :: trace (NativeTextInput.focus h))
    with ([HandleCall s Primary MFocus] ++ trace (NativeTextInput.focus h)).
  rewrite filter_app, (filter_host_calls is_focus (trace _));
    [ reflexivity | reflexivity | apply focus_only_host_calls ].
Qed.

Lemma focus_commands_fallback (s : Slot) (t : TextInput) :
  focus_commands (trace (focus_fallback s (Some t))) =
  [HandleCall s Fallback MFocus].
Proof. now rewrite trace_focus_fallback. Qed.

Lemma focus_slot_registered (app : State) (s : Slot) :
  registered app s ->
  focus_commands (trace (focus_slot app s)) =
  [HandleCall s (activeKind app s) MFocus].
Proof.
  unfold registered, activeKind, mounted, nativeAvailable, focus_slot.
  destruct s;
    [ destruct (isLegacyNativeAvailable app);
      [ destruct (legacyInputRef app) as [h |]
      | destruct (legacyFallbackRef app) as [t |] ]
    | destruct (isFabricNativeAvailable app);
      [ destruct (fabricInputRef app) as [h |]
      | destruct (fabricFallbackRef app) as [t |] ] ];
    intros H; try discriminate H;
    first [ apply focus_commands_primary | apply focus_commands_fallback ].
Qed.

Lemma focus_slot_targets (app : State) (s : Slot) :
  forallb (through_slot s) (focus_commands (trace (focus_slot app s))) = true.
Proof.
  unfold focus_slot.
  destruct s;
    [ destruct (isLegacyNativeAvailable app);
      [ destruct (legacyInputRef app) as [h |]
      | destruct (legacyFallbackRef app) as [t |] ]
    | destruct (isFabricNativeAvailable app);
      [ destruct (fabricInputRef app) as [h |]
      | destruct (fabricFallbackRef app) as [t |] ] ];
    rewrite ?focus_commands_primary, ?focus_commands_fallback;
    reflexivity.
Qed.

Lemma focus_commands_on_text_changed (app : State) (s : Slot)
    (text : string) :
  focus_commands (trace (on_text_changed app s text)) =
  if (text =? "") && negb (currentText app (other s) =? "")
  then focus_commands (trace (focus_slot app (other s)))
  else [].
Proof.
  rewrite on_text_changed_rule, trace_bind.
  unfold focus_commands. rewrite filter_app.
  replace (filter is_focus (trace (emit (setText s text)))) with (@nil Event)
    by (destruct s; reflexivity).
  destruct ((text =? "") && negb (currentText app (other s) =? ""));
    reflexivity.
Qed.

(** C1. With two registered slots A and B and a non-empty text in A,
    [on_text_changed (B, "")] issues exactly one focus command; it goes
    through A's primary handle when A is available and through A's
    fallback handle otherwise. *)
Theorem C1_clear_focuses_other (app : State) (B : Slot) :
  currentText app (other B) <> "" ->
  registered app (other B) ->
  registered app B ->
  focus_commands (trace (on_text_changed app B "")) =
  [HandleCall (other B)
     (if nativeAvailable app (other B) then Primary else Fallback)
     MFocus].
Proof.
  intros Htext HregA _.
  rewrite focus_commands_on_text_changed.
  apply String.eqb_neq in Htext. rewrite Htext. cbn.
  now apply focus_slot_registered.
Qed.

Lemma C1_clear_focuses_other_witness :
  focus_commands (trace (on_text_changed bothNative Legacy "")) =
  [HandleCall Fabric Primary MFocus].
Proof.
  apply (C1_clear_focuses_other bothNative Legacy);
    [ discriminate | reflexivity | reflexivity ].
Defined.

(* ===================================================================== *)
(** ** Repeated change events                                             *)
(* ===================================================================== *)

Lemma commit_calls (app : State) (tr : list Event) :
  forallb is_call tr = true -> commit app tr = app.
Proof.
  unfold commit. revert app.
  induction tr as [| ev tr IH]; cbn; [reflexivity |].
  intros app H. apply andb_true_iff in H as [Hev Htr].
  destruct ev; try discriminate; now apply IH.
Qed.

Lemma host_calls_are_calls (tr : list Event) :
  forallb is_host_call tr = true -> forallb is_call tr = true.
Proof.
  induction tr as [| ev tr IH]; cbn; [reflexivity |].
  intros H. apply andb_true_iff in H as [Hev Htr].
  destruct ev; try discriminate. now apply IH.
Qed.

Lemma focus_slot_calls (app : State) (s : Slot) :
  forallb is_call (trace (focus_slot app s)) = true.
Proof.
  unfold focus_slot.
  destruct s;
    [ destruct (isLegacyNativeAvailable app);
      [ destruct (legacyInputRef app) as [h |]
      | destruct (legacyFallbackRef app) as [t |] ]
    | destruct (isFabricNativeAvailable app);
      [ destruct (fabricInputRef app) as [h |]
      | destruct (fabricFallbackRef app) as [t |] ] ];
    rewrite ?trace_focus_primary, ?trace_focus_fallback;
    try reflexivity;
    apply (host_calls_are_calls (trace (NativeTextInput.focus h))),
      focus_only_host_calls.
Qed.

(** A change event only updates the text of its own slot. *)
Lemma commit_on_text_changed (app : State) (s : Slot) (text : string) :
  commit app (trace (on_text_changed app s text)) =
  apply_event app (setText s text).
Proof.
  rewrite on_text_changed_rule, trace_bind.
  unfold commit. rewrite fold_left_app.
  change (fold_left apply_event (trace (emit (setText s text))) app)
    with (apply_event app (setText s text)).
  apply commit_calls.
  change (outcome (emit (setText s text))) with (@inr Exn unit tt).
  destruct ((text =? "") && negb (currentText app (other s) =? ""));
    [ apply focus_slot_calls | reflexivity ].
Qed.

(** C4 (amended). A repeated [on_text_changed (S, t)] with the same [t]
    issues the same focus commands as the first call: the rule reads the
    text of the event and the text of the other slot, never the previous
    text of [S]. It issues the focus command of the other slot on every
    event whose text is empty while the other slot's text is not, and
    none on an event whose text is not empty. *)
Theorem C4_repeat_same_commands (app : State) (S : Slot) (t : string) :
  let first := on_text_changed app S t in
  let second := on_text_changed (commit app (trace first)) S t in
  focus_commands (trace second) = focus_commands (trace first) /\
  focus_commands (trace first) =
  if (t =? "") && negb (currentText app (other S) =? "")
  then focus_commands (trace (focus_slot app (other S)))
  else [].
Proof.
  cbv zeta. split; [| apply focus_commands_on_text_changed].
  rewrite commit_on_text_changed, !focus_commands_on_text_changed.
  destruct S; reflexivity.
Qed.

(** C4, as stated, fails: after [on_text_changed (legacy, "")] a second
    [on_text_changed (legacy, "")] focuses the fabric input again. *)
Lemma C4_repeat_refocuses :
  ~ (forall (app : State) (S : Slot) (t : string),
        focus_commands
          (trace (on_text_changed
                    (commit app (trace (on_text_changed app S t))) S t))
        = []).
Proof.
  intros H. specialize (H bothNative Legacy "").
  vm_compute in H. discriminate H.
Qed.

(* ===================================================================== *)
(** ** Availability                                                       *)
(* ===================================================================== *)

Lemma nativeAvailable_commit (s : Slot) (tr : list Event) :
  existsb (is_report_for s) tr = false ->
  forall app, nativeAvailable (commit app tr) s = nativeAvailable app s.
Proof.
  unfold commit.
  induction tr as [| ev tr IH]; cbn; [reflexivity |].
  intros H app. apply orb_false_iff in H as [Hev Htr].
  rewrite (IH Htr). destruct s, ev; try discriminate Hev; reflexivity.
Qed.

(** C5 (amended). Availability is a boolean state initialised to [true]:
    the query never answers [unknown], and a slot whose availability was
    never reported is [available], whatever its refs hold and whatever
    else happened. *)
Theorem C5_unreported_is_available :
  (forall (app : State) (s : Slot), is_available app s <> unknown) /\
  (forall (lp fp : option ExtendedTextInputHandle)
          (lf ff : option TextInput) (s : Slot) (tr : list Event),
      existsb (is_report_for s) tr = false ->
      is_available (commit (mkState "" "" true true lp fp lf ff) tr) s
      = available).
Proof.
  split.
  - intros app s. unfold is_available, of_bool.
    destruct (nativeAvailable app s); discriminate.
  - intros lp fp lf ff s tr H. unfold is_available.
    rewrite (nativeAvailable_commit s tr H). destruct s; reflexivity.
Qed.

Lemma C5_unreported_is_available_witness :
  is_available
    (commit initial [SetLegacyText "a"; SetIsFabricNativeAvailable false])
    Legacy = available.
Proof.
  apply (proj2 C5_unreported_is_available None None None None Legacy
           [SetLegacyText "a"; SetIsFabricNativeAvailable false]).
  reflexivity.
Defined.

(** C5, as stated, fails: a mounted slot that never reported is not
    [unknown]. *)
Lemma C5_default_is_not_unknown :
  registered justMounted Legacy /\
  is_available justMounted Legacy <> unknown.
Proof. split; [reflexivity | discriminate]. Qed.

(** C6. After the wrapper of a slot reports [v] the query answers [v],
    and a second report of the same [v] by the same wrapper does not
    notify [App] again: two reports make exactly one notification. *)
Theorem C6_report_then_query (app : State) (s : Slot) (v : bool) :
  is_available (commit app (trace (report_availability s v None))) s
  = of_bool v /\
  filter is_notification (trace (report_twice s v)) = [notification s v].
Proof.
  destruct s, v; split; reflexivity.
Qed.

(** A report of a different value by the same wrapper does notify. *)
Lemma report_changed_value (s : Slot) (v : bool) :
  trace (report_availability s v (Some (negb v, Some (statusCallback s))))
  = [notification s v].
Proof. destruct s, v; reflexivity. Qed.

(* ===================================================================== *)
(** ** Clearing both inputs                                               *)
(* ===================================================================== *)

Lemma bind_returns {A B} (m : M A) (k : A -> M B) (a : A) :
  outcome m = inr a ->
  bind m k = (trace m ++ trace (k a), outcome (k a)).
Proof.
  destruct m as [tr [e | a']]; cbn; intros H; [discriminate |].
  injection H as ->. now destruct (k a).
Qed.

Lemma guarded_clear_returns (s : Slot) (msg : string)
    (h : ExtendedTextInputHandle) :
  try_catch (clear_primary s h) (fun e => emit (ConsoleWarn msg e)) =
  (guarded_clear_trace s msg h, inr tt).
Proof.
  unfold clear_primary, guarded_clear_trace.
  destruct (NativeTextInput.clear h) as [tr [e | v]]; cbn;
    [ reflexivity | now rewrite !app_nil_r ].
Qed.

Lemma clear_commands_guarded (s : Slot) (msg : string)
    (h : ExtendedTextInputHandle) :
  clear_commands (guarded_clear_trace s msg h) = [HandleCall s Primary MClear].
Proof.
  unfold clear_commands, guarded_clear_trace. cbn [filter is_clear].
  rewrite filter_app, (filter_host_calls is_clear (trace _));
    [ | reflexivity | apply clear_only_host_calls ].
  now destruct (outcome (NativeTextInput.clear h)).
Qed.

Lemma scheduled_app (tr1 tr2 : list Event) :
  scheduled (tr1 ++ tr2) = scheduled tr1 ++ scheduled tr2.
Proof.
  induction tr1 as [| ev tr1 IH]; cbn; [reflexivity |].
  destruct ev; cbn; now rewrite IH.
Qed.

Lemma scheduled_guarded (s : Slot) (msg : string)
    (h : ExtendedTextInputHandle) :
  scheduled (guarded_clear_trace s msg h) = [].
Proof.
  unfold guarded_clear_trace. cbn [scheduled].
  rewrite scheduled_app, scheduled_host_calls
    by apply clear_only_host_calls.
  now destruct (outcome (NativeTextInput.clear h)).
Qed.

(** With both slots on their native wrappers, [clearInputs] runs to its
    end whatever the wrappers do. *)
Lemma clearInputs_native (app : State) (hL hF : ExtendedTextInputHandle) :
  isLegacyNativeAvailable app = true ->
  legacyInputRef app = Some hL ->
  isFabricNativeAvailable app = true ->
  fabricInputRef app = Some hF ->
  clearInputs app =
  ([SetLegacyText ""; SetFabricText ""] ++
   guarded_clear_trace Legacy "Legacy clear failed:" hL ++
   guarded_clear_trace Fabric "Fabric clear failed:" hF ++
   [SetTimeout (FocusLegacy true) 100],
   inr tt).
Proof.
  intros HaL HrL HaF HrF.
  unfold clearInputs, clearLegacy, clearFabric.
  rewrite HaL, HrL, HaF, HrF, !guarded_clear_returns.
  cbn. now rewrite <- !app_assoc.
Qed.

Lemma commit_guarded (app : State) (s : Slot) (msg : string)
    (h : ExtendedTextInputHandle) :
  commit app (guarded_clear_trace s msg h) = app.
Proof.
  unfold guarded_clear_trace, commit. cbn [fold_left apply_event].
  rewrite fold_left_app.
  fold (commit app (trace (NativeTextInput.clear h))).
  rewrite commit_calls
    by apply host_calls_are_calls, clear_only_host_calls.
  now destruct (outcome (NativeTextInput.clear h)).
Qed.

(** ... and both texts are empty in the next render. *)
Lemma clearInputs_native_resets (app : State)
    (hL hF : ExtendedTextInputHandle) (s : Slot) :
  isLegacyNativeAvailable app = true ->
  legacyInputRef app = Some hL ->
  isFabricNativeAvailable app = true ->
  fabricInputRef app = Some hF ->
  currentText (commit app (trace (clearInputs app))) s = "".
Proof.
  intros HaL HrL HaF HrF.
  rewrite (clearInputs_native app hL hF HaL HrL HaF HrF).
  unfold trace, fst, commit. rewrite !fold_left_app.
  cbn [fold_left].
  fold (commit (apply_event (apply_event app (SetLegacyText ""))
                  (SetFabricText ""))
          (guarded_clear_trace Legacy "Legacy clear failed:" hL)).
  rewrite commit_guarded.
  fold (commit (apply_event (apply_event app (SetLegacyText ""))
                  (SetFabricText ""))
          (guarded_clear_trace Fabric "Fabric clear failed:" hF)).
  rewrite commit_guarded.
  destruct s; reflexivity.
Qed.

(** C2 fails on the fallback branch: with the legacy slot on its
    JavaScript fallback, a throwing [clear()] of that fallback leaves
    [clear_all] through the exception; the fabric handle is not cleared
    and no focus is scheduled. *)
Theorem C2_fallback_clear_aborts :
  clear_all legacyFallbackClearThrows =
  ([SetLegacyText ""; SetFabricText ""; HandleCall Legacy Fallback MClear],
   inl "clear failed") /\
  clear_commands (trace (clear_all legacyFallbackClearThrows)) =
  [HandleCall Legacy Fallback MClear] /\
  scheduled (trace (clear_all legacyFallbackClearThrows)) = [].
Proof. repeat split. Qed.

(** On the native branch the deferred callback focuses the legacy wrapper
    once. *)
Lemma deferred_focus_native (app : State) (h : ExtendedTextInputHandle) :
  legacyInputRef app = Some h ->
  focus_commands (trace (run_callback (FocusLegacy true) app)) =
  [HandleCall Legacy Primary MFocus].
Proof.
  intros Href. cbn [run_callback]. rewrite Href.
  apply focus_commands_primary.
Qed.

(** C3 (amended). An exception raised by [clear()] through a primary
    handle during [clear_all] is caught and logged with [console.warn];
    it does not leave [clear_all] and does not abort the steps that
    follow it. After the legacy primary [clear()] the clearing of the
    fabric slot runs and [clear_all] ends as that step ends; after the
    fabric primary [clear()] the deferred focus is scheduled and
    [clear_all] returns. With both slots on primary handles [clear_all]
    always returns, both handles receive [clear()] and the deferred focus
    is scheduled. An exception raised by [focus()] is not caught: it
    leaves [on_text_changed] towards the caller. *)
Theorem C3_clear_caught_focus_propagates (app : State) :
  (forall hL : ExtendedTextInputHandle,
      isLegacyNativeAvailable app = true ->
      legacyInputRef app = Some hL ->
      clear_all app =
      ([SetLegacyText ""; SetFabricText ""] ++
       guarded_clear_trace Legacy "Legacy clear failed:" hL ++
       trace (clearFabric app) ++
       (if returns (clearFabric app)
        then [SetTimeout (FocusLegacy true) 100] else []),
       outcome (clearFabric app))) /\
  (forall hF : ExtendedTextInputHandle,
      isFabricNativeAvailable app = true ->
      fabricInputRef app = Some hF ->
      outcome (clearLegacy app) = inr tt ->
      clear_all app =
      ([SetLegacyText ""; SetFabricText ""] ++
       trace (clearLegacy app) ++
       guarded_clear_trace Fabric "Fabric clear failed:" hF ++
       [SetTimeout (FocusLegacy (isLegacyNativeAvailable app)) 100],
       inr tt)) /\
  (forall hL hF : ExtendedTextInputHandle,
      isLegacyNativeAvailable app = true ->
      legacyInputRef app = Some hL ->
      isFabricNativeAvailable app = true ->
      fabricInputRef app = Some hF ->
      outcome (clear_all app) = inr tt /\
      trace (clear_all app) =
        [SetLegacyText ""; SetFabricText ""] ++
        guarded_clear_trace Legacy "Legacy clear failed:" hL ++
        guarded_clear_trace Fabric "Fabric clear failed:" hF ++
        [SetTimeout (FocusLegacy true) 100] /\
      clear_commands (trace (clear_all app)) =
        [HandleCall Legacy Primary MClear; HandleCall Fabric Primary MClear] /\
      scheduled (trace (clear_all app)) = [(FocusLegacy true, 100)]) /\
  (forall (S : Slot) (e : Exn),
      currentText app (other S) <> "" ->
      outcome (focus_slot app (other S)) = inl e ->
      outcome (on_text_changed app S "") = inl e).
Proof.
  split; [| split; [| split]].
  - intros hL HaL HrL. unfold clear_all, clearInputs, clearLegacy, returns.
    rewrite HaL, HrL, guarded_clear_returns.
    destruct (clearFabric app) as [trF [e | []]]; cbn;
      now rewrite <- ?app_assoc, ?app_nil_r.
  - intros hF HaF HrF HL. unfold clear_all, clearInputs, clearFabric.
    rewrite HaF, HrF, guarded_clear_returns.
    destruct (clearLegacy app) as [trL [e | []]]; [discriminate HL |].
    cbn. now rewrite <- ?app_assoc.
  - intros hL hF HaL HrL HaF HrF. unfold clear_all.
    rewrite (clearInputs_native app hL hF HaL HrL HaF HrF).
    unfold trace, outcome, fst, snd.
    repeat split.
    + unfold clear_commands. rewrite !filter_app.
      fold (clear_commands (guarded_clear_trace Legacy "Legacy clear failed:" hL)).
      fold (clear_commands (guarded_clear_trace Fabric "Fabric clear failed:" hF)).
      now rewrite !clear_commands_guarded.
    + now rewrite !scheduled_app, !scheduled_guarded.
  - intros S e Htext Hthrow.
    rewrite on_text_changed_rule, outcome_bind.
    apply String.eqb_neq in Htext. rewrite Htext. exact Hthrow.
Qed.

Lemma C3_clear_caught_focus_propagates_witness :
  (clear_all legacyPrimaryFabricFallbackThrow =
   ([SetLegacyText ""; SetFabricText "";
     HandleCall Legacy Primary MClear; HostCall 1 MClear;
     ConsoleWarn "Legacy clear failed:" "clear failed";
     HandleCall Fabric Fallback MClear],
    inl "clear failed")) /\
  (clear_all fabricPrimaryLegacyFallback =
   ([SetLegacyText ""; SetFabricText "";
     HandleCall Legacy Fallback MClear;
     HandleCall Fabric Primary MClear; HostCall 2 MClear;
     ConsoleWarn "Fabric clear failed:" "clear failed";
     SetTimeout (FocusLegacy false) 100],
    inr tt)) /\
  (outcome (clear_all legacyClearThrows) = inr tt /\
   In (ConsoleWarn "Legacy clear failed:" "clear failed")
      (trace (clear_all legacyClearThrows))) /\
  outcome (on_text_changed fabricFocusThrows Legacy "") = inl "focus failed".
Proof.
  split; [| split; [| split]].
  - apply (proj1 (C3_clear_caught_focus_propagates
                    legacyPrimaryFabricFallbackThrow)
             (mkHandle (Some (clearThrowingInput 1)) true));
      reflexivity.
  - apply (proj1 (proj2 (C3_clear_caught_focus_propagates
                           fabricPrimaryLegacyFallback))
             (mkHandle (Some (clearThrowingInput 2)) true));
      reflexivity.
  - destruct (proj1 (proj2 (proj2
                (C3_clear_caught_focus_propagates legacyClearThrows)))
                (mkHandle (Some (clearThrowingInput 1)) true)
                (mkHandle (Some (quietInput 2)) true)
                eq_refl eq_refl eq_refl eq_refl) as (Hret & Htr & _).
    split; [exact Hret |]. rewrite Htr. vm_compute. tauto.
  - apply (proj2 (proj2 (proj2
             (C3_clear_caught_focus_propagates fabricFocusThrows)))
             Legacy "focus failed"); [discriminate | reflexivity].
Defined.

(** C3, as stated, fails: a throwing [focus()] leaves
    [on_text_changed]. *)
Lemma C3_focus_exception_escapes :
  ~ (forall (app : State) (s : Slot) (text : string),
        returns (on_text_changed app s text) = true).
Proof.
  intros H. specialize (H fabricFocusThrows Legacy "").
  vm_compute in H. discriminate H.
Qed.

(* ===================================================================== *)
(** ** The deferred focus                                                 *)
(* ===================================================================== *)

(** C7. When a slot is unregistered between the [setTimeout] of
    [clear_all] and the run of its callback, the callback makes no call
    through a ref of that slot; for the legacy slot, which the callback
    targets, it does nothing at all. *)
Theorem C7_stale_callback_no_call (app app' : State) (s : Slot)
    (cb : Callback) (ms : nat) :
  In (cb, ms) (scheduled (trace (clear_all app))) ->
  filter (through_slot s) (trace (run_callback cb (unregister_slot s app')))
  = [] /\
  run_callback cb (unregister_slot Legacy app') = ret tt.
Proof.
  intros _. destruct cb as [captured]. split.
  - destruct s, captured; cbn [run_callback unregister_slot legacyInputRef
                               legacyFallbackRef]; try reflexivity.
    + destruct (legacyInputRef app') as [h |]; [| reflexivity].
      rewrite trace_focus_primary. cbn [filter through_slot].
      apply filter_host_calls;
        [ reflexivity | apply focus_only_host_calls ].
    + destruct (legacyFallbackRef app') as [t |]; [| reflexivity].
      now rewrite trace_focus_fallback.
  - destruct captured; reflexivity.
Qed.

Lemma C7_stale_callback_no_call_witness :
  filter (through_slot Legacy)
    (trace (run_callback (FocusLegacy true)
              (unregister_slot Legacy bothNative))) = [] /\
  run_callback (FocusLegacy true) (unregister_slot Legacy bothNative)
  = ret tt.
Proof.
  apply (C7_stale_callback_no_call bothNative bothNative Legacy
           (FocusLegacy true) 100).
  vm_compute. left. reflexivity.
Defined.

(* ===================================================================== *)
(** ** More on [clearInputs] and the change handlers                      *)
(* ===================================================================== *)

Lemma forallb_filter_nil (P Q : Event -> bool) (tr : list Event) :
  (forall ev, P ev = true -> Q ev = false) ->
  forallb P tr = true -> filter Q tr = [].
Proof.
  intros HPQ. induction tr as [| ev tr IH]; cbn; [reflexivity |].
  intros H. apply andb_true_iff in H as [Hev Htr].
  now rewrite (HPQ ev Hev), IH.
Qed.

Lemma forallb_existsb_false (P Q : Event -> bool) (tr : list Event) :
  (forall ev, P ev = true -> Q ev = false) ->
  forallb P tr = true -> existsb Q tr = false.
Proof.
  intros HPQ. induction tr as [| ev tr IH]; cbn; [reflexivity |].
  intros H. apply andb_true_iff in H as [Hev Htr].
  now rewrite (HPQ ev Hev), IH.
Qed.

Lemma host_calls_are_clear_block (tr : list Event) :
  forallb is_host_call tr = true -> forallb clear_block_event tr = true.
Proof.
  induction tr as [| ev tr IH]; cbn; [reflexivity |].
  intros H. apply andb_true_iff in H as [Hev Htr].
  destruct ev; try discriminate. now apply IH.
Qed.

Lemma guarded_clear_block (s : Slot) (msg : string)
    (h : ExtendedTextInputHandle) :
  forallb clear_block_event (guarded_clear_trace s msg h) = true.
Proof.
  unfold guarded_clear_trace. cbn [forallb clear_block_event andb].
  rewrite forallb_app, host_calls_are_clear_block
    by apply clear_only_host_calls.
  now destruct (outcome (NativeTextInput.clear h)).
Qed.

Lemma clear_fallback_block (s : Slot) (t : TextInput) :
  forallb clear_block_event (trace (clear_fallback s t)) = true.
Proof.
  unfold clear_fallback, invoke.
  destruct (ti_clear t) as [[v | e] |]; reflexivity.
Qed.

Lemma clearLegacy_block (app : State) :
  forallb clear_block_event (trace (clearLegacy app)) = true.
Proof.
  unfold clearLegacy.
  destruct (isLegacyNativeAvailable app);
    destruct (legacyInputRef app) as [h |];
    try (rewrite guarded_clear_returns; apply guarded_clear_block);
    destruct (legacyFallbackRef app) as [t |];
    first [ apply clear_fallback_block | reflexivity ].
Qed.

Lemma clearFabric_block (app : State) :
  forallb clear_block_event (trace (clearFabric app)) = true.
Proof.
  unfold clearFabric.
  destruct (isFabricNativeAvailable app);
    destruct (fabricInputRef app) as [h |];
    try (rewrite guarded_clear_returns; apply guarded_clear_block);
    destruct (fabricFallbackRef app) as [t |];
    first [ apply clear_fallback_block | reflexivity ].
Qed.

(** The run of [clearInputs], block by block. *)
Lemma clearInputs_shape (app : State) :
  clearInputs app =
  match clearLegacy app with
  | (trL, inl e) => ([SetLegacyText ""; SetFabricText ""] ++ trL, inl e)
  | (trL, inr _) =>
      match clearFabric app with
      | (trF, inl e) =>
          ([SetLegacyText ""; SetFabricText ""] ++ trL ++ trF, inl e)
      | (trF, inr _) =>
          ([SetLegacyText ""; SetFabricText ""] ++ trL ++ trF ++
           [SetTimeout (FocusLegacy (isLegacyNativeAvailable app)) 100],
           inr tt)
      end
  end.
Proof.
  unfold clearInputs.
  destruct (clearLegacy app) as [trL [e | []]];
    destruct (clearFabric app) as [trF [e' | []]]; reflexivity.
Qed.

(** Case analysis on the two blocks of [clearInputs], keeping what is
    known about the events of each. *)
Ltac clear_blocks app :=
  rewrite (clearInputs_shape app);
  pose proof (clearLegacy_block app) as HL;
  pose proof (clearFabric_block app) as HF;
  destruct (clearLegacy app) as [trL [eL | []]];
  destruct (clearFabric app) as [trF [eF | []]];
  unfold trace, outcome, fst, snd in *.

Lemma clear_block_not_focus (ev : Event) :
  clear_block_event ev = true -> is_focus ev = false.
Proof. destruct ev as [| | | | s k [] | | |]; cbn; congruence. Qed.

Lemma clear_block_not_report (s : Slot) (ev : Event) :
  clear_block_event ev = true -> is_report_for s ev = false.
Proof. destruct s, ev; cbn; congruence. Qed.

Lemma clear_block_not_notification (ev : Event) :
  clear_block_event ev = true -> is_notification ev = false.
Proof. destruct ev; cbn; congruence. Qed.

Lemma scheduled_clear_block (tr : list Event) :
  forallb clear_block_event tr = true -> scheduled tr = [].
Proof.
  induction tr as [| ev tr IH]; cbn; [reflexivity |].
  intros H. apply andb_true_iff in H as [Hev Htr].
  destruct ev; try discriminate; now apply IH.
Qed.

Lemma commit_clear_block (app : State) (tr : list Event) :
  forallb clear_block_event tr = true -> commit app tr = app.
Proof.
  unfold commit. revert app.
  induction tr as [| ev tr IH]; cbn; [reflexivity |].
  intros app H. apply andb_true_iff in H as [Hev Htr].
  destruct ev; try discriminate; now apply IH.
Qed.

Lemma commit_app (app : State) (tr1 tr2 : list Event) :
  commit app (tr1 ++ tr2) = commit (commit app tr1) tr2.
Proof. unfold commit. apply fold_left_app. Qed.

Lemma commit_clearInputs (app : State) :
  commit app (trace (clearInputs app)) = cleared app.
Proof.
  clear_blocks app;
    rewrite ?commit_app;
    change (commit app [SetLegacyText ""; SetFabricText ""])
      with (cleared app);
    rewrite ?(commit_clear_block _ trL HL), ?(commit_clear_block _ trF HF);
    reflexivity.
Qed.

(** X1. [clearInputs] issues no focus command itself, in any state and
    however it ends: focus only happens in the deferred callback. *)
Theorem X1_clearInputs_never_focuses (app : State) :
  focus_commands (trace (clearInputs app)) = [].
Proof.
  unfold focus_commands.
  clear_blocks app; rewrite !filter_app;
    rewrite ?(forallb_filter_nil _ _ trL clear_block_not_focus HL),
            ?(forallb_filter_nil _ _ trF clear_block_not_focus HF);
    reflexivity.
Qed.

(** X2. [clearInputs] schedules exactly one timer, of 100 ms and
    capturing the current legacy availability, when it returns, and no
    timer when it is left by an exception. *)
Theorem X2_clearInputs_schedules_iff_returns (app : State) :
  scheduled (trace (clearInputs app)) =
  if returns (clearInputs app)
  then [(FocusLegacy (isLegacyNativeAvailable app), 100)]
  else [].
Proof.
  unfold returns.
  clear_blocks app; rewrite !scheduled_app;
    rewrite ?(scheduled_clear_block trL HL), ?(scheduled_clear_block trF HF);
    reflexivity.
Qed.

(** X3. Whatever the handles do, the render after [clearInputs] sees
    both texts empty, and the availability of both slots and the four
    refs as they were. *)
Theorem X3_clearInputs_resets_texts_only (app : State) (s : Slot) :
  let app' := commit app (trace (clearInputs app)) in
  currentText app' s = "" /\
  nativeAvailable app' s = nativeAvailable app s /\
  primaryRef app' s = primaryRef app s /\
  fallbackRef app' s = fallbackRef app s.
Proof.
  cbv zeta. rewrite commit_clearInputs. destruct s; repeat split.
Qed.

(** X4. After [clearInputs] no change event auto-advances: with both
    texts empty the next [on_text_changed] issues no focus command,
    whatever its text. *)
Theorem X4_no_auto_advance_after_clear (app : State) (s : Slot)
    (text : string) :
  focus_commands
    (trace (on_text_changed (commit app (trace (clearInputs app))) s text))
  = [].
Proof.
  rewrite commit_clearInputs, focus_commands_on_text_changed.
  replace (currentText (cleared app) (other s)) with ""
    by (destruct s; reflexivity).
  cbn. now rewrite andb_false_r.
Qed.

Lemma clearLegacy_throws (app : State) (e : Exn) :
  outcome (clearLegacy app) = inl e ->
  exists t, legacyFallbackRef app = Some t /\
            isLegacyNativeAvailable app && held (legacyInputRef app) = false /\
            outcome (invoke (ti_clear t) "clear") = inl e.
Proof.
  unfold clearLegacy.
  destruct (isLegacyNativeAvailable app);
    destruct (legacyInputRef app) as [h |];
    try (rewrite guarded_clear_returns; discriminate);
    (destruct (legacyFallbackRef app) as [t |]; [| discriminate]);
    intros H; exists t; repeat split;
    unfold clear_fallback in H; rewrite outcome_bind in H; cbn in H;
    rewrite outcome_bind in H;
    destruct (outcome (invoke (ti_clear t) "clear")); cbn in H;
    congruence.
Qed.

Lemma clearFabric_throws (app : State) (e : Exn) :
  outcome (clearFabric app) = inl e ->
  exists t, fabricFallbackRef app = Some t /\
            isFabricNativeAvailable app && held (fabricInputRef app) = false /\
            outcome (invoke (ti_clear t) "clear") = inl e.
Proof.
  unfold clearFabric.
  destruct (isFabricNativeAvailable app);
    destruct (fabricInputRef app) as [h |];
    try (rewrite guarded_clear_returns; discriminate);
    (destruct (fabricFallbackRef app) as [t |]; [| discriminate]);
    intros H; exists t; repeat split;
    unfold clear_fallback in H; rewrite outcome_bind in H; cbn in H;
    rewrite outcome_bind in H;
    destruct (outcome (invoke (ti_clear t) "clear")); cbn in H;
    congruence.
Qed.

(** X5. The only exception that leaves [clearInputs] is the one raised
    by [clear()] of a fallback [TextInput]: of a slot that is not on a
    mounted native wrapper and whose fallback ref is set. *)
Theorem X5_clearInputs_throws_only_from_fallback (app : State) (e : Exn) :
  outcome (clearInputs app) = inl e ->
  exists (s : Slot) (t : TextInput),
    fallbackRef app s = Some t /\
    nativeAvailable app s && held (primaryRef app s) = false /\
    outcome (invoke (ti_clear t) "clear") = inl e.
Proof.
  rewrite (clearInputs_shape app).
  pose proof (clearLegacy_throws app) as HL.
  pose proof (clearFabric_throws app) as HF.
  destruct (clearLegacy app) as [trL [eL | []]].
  - intros H. injection H as <-.
    destruct (HL eL eq_refl) as (t & H1 & H2 & H3).
    now exists Legacy, t.
  - destruct (clearFabric app) as [trF [eF | []]]; [| discriminate].
    intros H. injection H as <-.
    destruct (HF eF eq_refl) as (t & H1 & H2 & H3).
    now exists Fabric, t.
Qed.

Lemma X5_clearInputs_throws_only_from_fallback_witness :
  exists (s : Slot) (t : TextInput),
    fallbackRef legacyFallbackClearThrows s = Some t /\
    nativeAvailable legacyFallbackClearThrows s &&
      held (primaryRef legacyFallbackClearThrows s) = false /\
    outcome (invoke (ti_clear t) "clear") = inl "clear failed".
Proof.
  apply (X5_clearInputs_throws_only_from_fallback
           legacyFallbackClearThrows "clear failed").
  reflexivity.
Defined.

Lemma primaryRef_commit (app : State) (tr : list Event) (s : Slot) :
  primaryRef (commit app tr) s = primaryRef app s.
Proof.
  unfold commit. revert app.
  induction tr as [| ev tr IH]; cbn; [reflexivity |].
  intros app. rewrite IH. destruct ev, s; reflexivity.
Qed.

Lemma fallbackRef_commit (app : State) (tr : list Event) (s : Slot) :
  fallbackRef (commit app tr) s = fallbackRef app s.
Proof.
  unfold commit. revert app.
  induction tr as [| ev tr IH]; cbn; [reflexivity |].
  intros app. rewrite IH. destruct ev, s; reflexivity.
Qed.

(** X6. Pressing Generate and then emptying one input focuses the other
    input, once, through the handle rendered for it. *)
Theorem X6_generate_then_clear_one (app : State) (s : Slot) :
  registered app (other s) ->
  focus_commands
    (trace (on_text_changed (commit app (trace (generateText app))) s ""))
  = [HandleCall (other s) (activeKind app (other s)) MFocus].
Proof.
  intros Hreg. rewrite focus_commands_on_text_changed.
  replace (currentText (commit app (trace (generateText app))) (other s))
    with "Hello Native Components!" by (destruct s; reflexivity).
  cbn [String.eqb Ascii.eqb Bool.eqb andb negb].
  rewrite (focus_slot_registered _ (other s)); [destruct s; reflexivity |].
  destruct s; exact Hreg.
Qed.

Lemma X6_generate_then_clear_one_witness :
  focus_commands
    (trace (on_text_changed
              (commit justMounted (trace (generateText justMounted)))
              Fabric ""))
  = [HandleCall Legacy Primary MFocus].
Proof.
  apply (X6_generate_then_clear_one justMounted Fabric). reflexivity.
Defined.

(** X7. When the ref of the handle rendered for the other slot is null,
    a change event only updates the text: no call is made and nothing is
    thrown, whatever the texts are. *)
Theorem X7_unmounted_target_is_skipped (app : State) (s : Slot)
    (text : string) :
  mounted app (other s) (activeKind app (other s)) = false ->
  on_text_changed app s text = emit (setText s text).
Proof.
  unfold mounted, activeKind, nativeAvailable.
  destruct s; cbn [other on_text_changed setText];
    unfold handleLegacyChange, handleFabricChange;
    [ destruct (isFabricNativeAvailable app);
      [ destruct (fabricInputRef app) | destruct (fabricFallbackRef app) ]
    | destruct (isLegacyNativeAvailable app);
      [ destruct (legacyInputRef app) | destruct (legacyFallbackRef app) ] ];
    cbn [held]; intros H; try discriminate H;
    match goal with
    | |- context [if ?c then _ else _] => destruct c
    end; reflexivity.
Qed.

Lemma X7_unmounted_target_is_skipped_witness :
  on_text_changed (unregister_slot Fabric bothNative) Legacy ""
  = emit (SetLegacyText "").
Proof.
  apply (X7_unmounted_target_is_skipped
           (unregister_slot Fabric bothNative) Legacy "").
  reflexivity.
Defined.

Lemma run_callback_commit (cb : Callback) (app : State) (tr : list Event) :
  run_callback cb (commit app tr) = run_callback cb app.
Proof.
  destruct cb as [[]]; cbn [run_callback];
    [ change (legacyInputRef (commit app tr))
        with (primaryRef (commit app tr) Legacy);
      now rewrite primaryRef_commit
    | change (legacyFallbackRef (commit app tr))
        with (fallbackRef (commit app tr) Legacy);
      now rewrite fallbackRef_commit ].
Qed.

(** X8. The deferred callback acts on the availability captured when
    [clearInputs] ran and on the refs at the time it fires: state updates
    committed in between, to the texts or to the availability, do not
    change what it does. *)
Theorem X8_callback_ignores_later_state (cb : Callback) (app : State)
    (tr : list Event) :
  run_callback cb (commit app tr) = run_callback cb app.
Proof.
  destruct cb as [captured]. cbn [run_callback].
  change (legacyInputRef (commit app tr))
    with (primaryRef (commit app tr) Legacy).
  change (legacyFallbackRef (commit app tr))
    with (fallbackRef (commit app tr) Legacy).
  now rewrite primaryRef_commit, fallbackRef_commit.
Qed.

(** X9. Every timer [clearInputs] schedules has a delay of 100 ms, and
    when it fires on the state [clearInputs] left, with the legacy slot
    registered, it issues exactly one focus command, through the handle
    rendered for the legacy slot. *)
Theorem X9_deferred_focus_once (app : State) (cb : Callback) (ms : nat) :
  In (cb, ms) (scheduled (trace (clearInputs app))) ->
  registered app Legacy ->
  ms = 100 /\
  focus_commands
    (trace (run_callback cb (commit app (trace (clearInputs app)))))
  = [HandleCall Legacy (activeKind app Legacy) MFocus].
Proof.
  intros Hin Hreg. rewrite run_callback_commit.
  assert (Hcb : (cb, ms) = (FocusLegacy (isLegacyNativeAvailable app), 100)).
  { revert Hin. clear_blocks app; rewrite !scheduled_app;
      rewrite ?(scheduled_clear_block trL HL),
              ?(scheduled_clear_block trF HF);
      cbn; intros H; try (destruct H as [H | []]; now symmetry);
      contradiction. }
  injection Hcb as -> ->. split; [reflexivity |].
  exact (focus_slot_registered app Legacy Hreg).
Qed.

Lemma X9_deferred_focus_once_witness :
  100 = 100 /\
  focus_commands
    (trace (run_callback (FocusLegacy false)
              (commit legacyOnFallback (trace (clearInputs legacyOnFallback)))))
  = [HandleCall Legacy Fallback MFocus].
Proof.
  apply (X9_deferred_focus_once legacyOnFallback (FocusLegacy false) 100).
  - vm_compute. left. reflexivity.
  - reflexivity.
Defined.

(* ===================================================================== *)
(** ** Availability is only changed by the wrappers                       *)
(* ===================================================================== *)

Lemma call_not_notification (ev : Event) :
  is_call ev = true -> is_notification ev = false.
Proof. destruct ev; cbn; congruence. Qed.

Lemma on_text_changed_no_notification (app : State) (s : Slot)
    (text : string) :
  existsb is_notification (trace (on_text_changed app s text)) = false.
Proof.
  rewrite on_text_changed_rule, trace_bind, existsb_app.
  replace (existsb is_notification (trace (emit (setText s text))))
    with false by (destruct s; reflexivity).
  change (outcome (emit (setText s text))) with (@inr Exn unit tt).
  destruct ((text =? "") && negb (currentText app (other s) =? ""));
    [| reflexivity].
  apply (forallb_existsb_false is_call);
    [ apply call_not_notification | apply focus_slot_calls ].
Qed.

Lemma clearInputs_no_notification (app : State) :
  existsb is_notification (trace (clearInputs app)) = false.
Proof.
  clear_blocks app; rewrite !existsb_app;
    rewrite ?(forallb_existsb_false _ _ trL clear_block_not_notification HL),
            ?(forallb_existsb_false _ _ trF clear_block_not_notification HF);
    reflexivity.
Qed.

Lemma run_callback_no_notification (cb : Callback) (app : State) :
  existsb is_notification (trace (run_callback cb app)) = false.
Proof.
  apply (forallb_existsb_false is_call); [apply call_not_notification |].
  destruct cb as [[]]; cbn [run_callback];
    [ destruct (legacyInputRef app) as [h |]
    | destruct (legacyFallbackRef app) as [t |] ];
    rewrite ?trace_focus_primary, ?trace_focus_fallback;
    try reflexivity.
  apply (host_calls_are_calls (trace (NativeTextInput.focus h))),
    focus_only_host_calls.
Qed.

(** X10. No handler of [App] changes the availability of a slot: the
    change handlers, Generate, Clear and the deferred callback never call
    [setIsLegacyNativeAvailable] or [setIsFabricNativeAvailable]. *)
Theorem X10_handlers_keep_availability (app : State) :
  (forall s text,
      existsb is_notification (trace (on_text_changed app s text)) = false) /\
  existsb is_notification (trace (generateText app)) = false /\
  existsb is_notification (trace (clearInputs app)) = false /\
  (forall cb,
      existsb is_notification (trace (run_callback cb app)) = false).
Proof.
  repeat split.
  - intros s text. apply on_text_changed_no_notification.
  - apply clearInputs_no_notification.
  - intros cb. apply run_callback_no_notification.
Qed.

(* ===================================================================== *)
(** ** The mount protocol                                                 *)
(* ===================================================================== *)

Lemma notification_is_report (s : Slot) (tr : list Event) :
  existsb is_notification tr = false ->
  existsb (is_report_for s) tr = false.
Proof.
  induction tr as [| ev tr IH]; cbn; [reflexivity |].
  intros H. apply orb_false_iff in H as [Hev Htr].
  rewrite (IH Htr). destruct s, ev; cbn in *; congruence.
Qed.

Lemma report_trace_cases (s : Slot) (v : bool) (prev : option Deps) :
  trace (report_availability s v prev) = [] \/
  trace (report_availability s v prev) = [notification s v].
Proof.
  unfold report_availability, render_effect, useEffect.
  destruct prev as [d |].
  - destruct (Deps_eqb d (v, Some (statusCallback s)));
      [left; reflexivity | right; destruct s; reflexivity].
  - right; destruct s; reflexivity.
Qed.

Lemma nativeAvailable_notification (app : State) (s s' : Slot) (v : bool) :
  nativeAvailable (apply_event app (notification s' v)) s =
  match s, s' with
  | Legacy, Legacy | Fabric, Fabric => v
  | _, _ => nativeAvailable app s
  end.
Proof. destruct s, s'; reflexivity. Qed.

(** The effects of a render leave the availability where the wrappers
    report it. *)
Lemma run_effects_keeps (found : Slot -> bool) (sys : System) :
  (forall s, nativeAvailable (sys_app sys) s = found s) ->
  forall s, nativeAvailable (sys_app (run_effects found sys)) s = found s.
Proof.
  intros Hinv s. unfold run_effects, slot_effect. cbn [sys_app].
  rewrite !Hinv, commit_app.
  pose proof (Hinv Legacy) as HL. pose proof (Hinv Fabric) as HF.
  destruct (found Legacy) eqn:EL, (found Fabric) eqn:EF;
    try destruct (report_trace_cases Legacy true (sys_deps sys Legacy))
      as [-> | ->];
    try destruct (report_trace_cases Fabric true (sys_deps sys Fabric))
      as [-> | ->];
    cbn [trace fst ret commit fold_left];
    rewrite ?nativeAvailable_notification;
    destruct s; cbn in *; congruence.
Qed.

Lemma run_handler_keeps (found : Slot -> bool) (sys : System) (m : M unit) :
  existsb is_notification (trace m) = false ->
  (forall s, nativeAvailable (sys_app sys) s = found s) ->
  forall s, nativeAvailable (sys_app (run_handler sys m)) s = found s.
Proof.
  intros Hm Hinv s. cbn [run_handler sys_app].
  rewrite nativeAvailable_commit; [apply Hinv |].
  now apply notification_is_report.
Qed.

Lemma step_keeps (found : Slot -> bool) (sys : System) (a : Action) :
  (forall s, nativeAvailable (sys_app sys) s = found s) ->
  forall s, nativeAvailable (sys_app (step found sys a)) s = found s.
Proof.
  intros Hinv. destruct a as [s' text | | | | | lp fp lf ff]; cbn [step].
  - apply run_handler_keeps;
      [apply on_text_changed_no_notification | exact Hinv].
  - apply run_handler_keeps; [reflexivity | exact Hinv].
  - apply run_handler_keeps;
      [apply clearInputs_no_notification | exact Hinv].
  - destruct (sys_timers sys) as [| [cb ms] rest]; [exact Hinv |].
    apply run_handler_keeps;
      [apply run_callback_no_notification | exact Hinv].
  - now apply run_effects_keeps.
  - intros s. rewrite <- (Hinv s). destruct s; reflexivity.
Qed.

Lemma run_keeps (found : Slot -> bool) (actions : list Action) :
  forall sys,
    (forall s, nativeAvailable (sys_app sys) s = found s) ->
    forall s, nativeAvailable (sys_app (run found sys actions)) s = found s.
Proof.
  unfold run.
  induction actions as [| a actions IH]; cbn [fold_left];
    intros sys Hinv; [exact Hinv |].
  apply IH. now apply step_keeps.
Qed.

Lemma mounted_system_available (found : Slot -> bool) (s : Slot) :
  nativeAvailable (sys_app (mounted_system found)) s = found s.
Proof.
  unfold mounted_system, run_effects, slot_effect. cbn [sys_app sys_deps].
  destruct s, (found Legacy), (found Fabric); reflexivity.
Qed.

Lemma on_screen_available (found : Slot -> bool) (app : State) (s : Slot) :
  nativeAvailable app s = found s ->
  on_screen found app s =
  if found s then NativeView (currentText app s)
  else JsTextInput (currentText app s).
Proof.
  unfold on_screen, render_slot, wrapper_render.
  destruct s; cbn [nativeAvailable currentText]; intros ->;
    now destruct (found _).
Qed.

(** X11. In the first render a slot whose native component is missing
    shows nothing; once the effects of that render have run it shows the
    JavaScript [TextInput], and a slot whose native component exists
    shows the native view both times. *)
Theorem X11_mount_selects_fallback (found : Slot -> bool) (s : Slot) :
  on_screen found initial s = (if found s then NativeView "" else Nothing) /\
  on_screen found (sys_app (mounted_system found)) s =
    (if found s then NativeView "" else JsTextInput "").
Proof.
  split.
  - unfold on_screen, wrapper_render. destruct s; cbn; now destruct (found _).
  - rewrite on_screen_available by apply mounted_system_available.
    unfold mounted_system, run_effects, slot_effect.
    cbn [sys_app sys_deps].
    destruct s, (found Legacy), (found Fabric); reflexivity.
Qed.

(** X12. From the mounted application on, whatever the user and the
    runtime do (change events, Generate, Clear, timers, re-renders, refs
    attached or detached), the availability state of each slot equals
    whether its native component exists, and the slot shows the native
    view or the JavaScript [TextInput] accordingly, never nothing. *)
Theorem X12_availability_invariant (found : Slot -> bool)
    (actions : list Action) (s : Slot) :
  let app := sys_app (run found (mounted_system found) actions) in
  nativeAvailable app s = found s /\
  on_screen found app s =
    (if found s then NativeView (currentText app s)
     else JsTextInput (currentText app s)).
Proof.
  cbv zeta.
  assert (H : nativeAvailable
                (sys_app (run found (mounted_system found) actions)) s
              = found s)
    by (apply run_keeps, mounted_system_available).
  split; [exact H | now apply on_screen_available].
Qed.

(* ===================================================================== *)
(** ** More on the wrapper's handle                                       *)
(* ===================================================================== *)

(** X13. On a mounted underlying input, [clear()] of the handle calls
    [setNativeProps({ text: '' })] exactly when the input has
    [setNativeProps] and its own [clear] is absent or returned a falsy
    value; a truthy result or an exception of the underlying [clear]
    ends the call without it. *)
Theorem X13_clear_reaches_setNativeProps (h : ExtendedTextInputHandle)
    (t : TextInput) :
  textInputRef h = Some t ->
  (In (HostCall (ti_id t) (MSetNativeProps ""))
      (trace (NativeTextInput.clear h)) <->
   ti_setNativeProps t <> None /\
   (ti_clear t = None \/
    exists v, ti_clear t = Some (Returns v) /\ truthy v = false)).
Proof.
  intros Href. unfold NativeTextInput.clear. rewrite Href.
  cbn [opt_chain]. unfold call_method_opt.
  destruct (ti_clear t) as [[v | e] |],
           (ti_setNativeProps t) as [[w | e'] |];
    cbn; try (destruct (truthy v) eqn:Hv; cbn);
    (split;
     [ intros H;
       repeat (destruct H as [H | H]; try discriminate H);
       try contradiction;
       (split;
        [ discriminate
        | first [ left; reflexivity
                | right; eexists; split; [reflexivity | assumption] ] ])
     | intros [Hs Hc];
       first
         [ solve [auto]
         | exfalso;
           first
             [ now apply Hs
             | destruct Hc as [Hc | (v' & Hc & Hv')];
               [ discriminate Hc
               | first [ discriminate Hc
                       | injection Hc as <-; congruence ] ] ] ] ]).
Qed.

Lemma X13_clear_reaches_setNativeProps_witness :
  In (HostCall 4 (MSetNativeProps ""))
     (trace (NativeTextInput.clear
               (mkHandle (Some (hostViewWithoutClear 4)) true))) <->
  ti_setNativeProps (hostViewWithoutClear 4) <> None /\
  (ti_clear (hostViewWithoutClear 4) = None \/
   exists v, ti_clear (hostViewWithoutClear 4) = Some (Returns v) /\
             truthy v = false).
Proof.
  apply (X13_clear_reaches_setNativeProps
           (mkHandle (Some (hostViewWithoutClear 4)) true)
           (hostViewWithoutClear 4)).
  reflexivity.
Defined.

(** X14. [clear()] of the handle never fails on its own account: an
    exception that leaves it was thrown by the underlying [clear] or by
    the underlying [setNativeProps] of a mounted input. *)
Theorem X14_clear_throws_only_underlying (h : ExtendedTextInputHandle)
    (e : Exn) :
  outcome (NativeTextInput.clear h) = inl e ->
  exists t, textInputRef h = Some t /\
            (ti_clear t = Some (Throws e) \/
             ti_setNativeProps t = Some (Throws e)).
Proof.
  destruct h as [[t |] na]; [| discriminate].
  unfold NativeTextInput.clear. cbn [textInputRef opt_chain].
  unfold call_method_opt. intros H. exists t. split; [reflexivity |].
  destruct (ti_clear t) as [[v | e1] |],
           (ti_setNativeProps t) as [[w | e2] |]; cbn in H;
    try (destruct (truthy v); cbn in H);
    try discriminate H; injection H as <-; auto.
Qed.

Lemma X14_clear_throws_only_underlying_witness :
  exists t, textInputRef (mkHandle (Some (clearThrowingInput 1)) true)
            = Some t /\
            (ti_clear t = Some (Throws "clear failed") \/
             ti_setNativeProps t = Some (Throws "clear failed")).
Proof.
  apply (X14_clear_throws_only_underlying
           (mkHandle (Some (clearThrowingInput 1)) true) "clear failed").
  reflexivity.
Defined.

(** X15. When [isFocused()] of the handle returns, its result is never
    [undefined] or [null]: a nullish answer of the underlying input, or
    an unmounted input, is answered [false]. *)
Theorem X15_isFocused_never_nullish (h : ExtendedTextInputHandle)
    (v : JsValue) :
  outcome (NativeTextInput.isFocused h) = inr v -> nullish v = false.
Proof.
  destruct h as [[t |] na]; unfold NativeTextInput.isFocused;
    cbn [textInputRef opt_chain].
  - unfold call_method.
    destruct (ti_isFocused t) as [[w | e] |]; cbn; try discriminate.
    destruct (nullish w) eqn:Hw; cbn; intros H; injection H as <-;
      [reflexivity | exact Hw].
  - cbn. intros H. now injection H as <-.
Qed.

Lemma X15_isFocused_never_nullish_witness :
  nullish (JsBool false) = false.
Proof.
  apply (X15_isFocused_never_nullish
           (mkHandle (Some (quietInput 1)) true) (JsBool false)).
  reflexivity.
Defined.

(** X17. With the native component of the other slot found and its view
    mounted, emptying an input makes exactly one [focus()] call on that
    view, and the handler ends as that call ends: an exception of the
    view's [focus()] leaves the handler. *)
Theorem X17_focus_reaches_view (app : State) (s : Slot)
    (view : TextInput) (b : Behaviour) :
  nativeAvailable app (other s) = true ->
  primaryRef app (other s) = Some (wrapper_handle true view) ->
  currentText app (other s) <> "" ->
  ti_focus view = Some b ->
  on_text_changed app s "" =
  ([setText s ""; HandleCall (other s) Primary MFocus;
    HostCall (ti_id view) MFocus],
   match b with
   | Returns _ => inr tt
   | Throws e => inl e
   end).
Proof.
  intros Ha Hr Ht Hf. apply String.eqb_neq in Ht.
  destruct s; cbn [other nativeAvailable primaryRef currentText] in *;
    cbn [on_text_changed]; unfold handleLegacyChange, handleFabricChange;
    rewrite Ha, Hr, Ht; cbn; unfold call_method; rewrite Hf;
    destruct b; reflexivity.
Qed.

Lemma X17_focus_reaches_view_witness :
  on_text_changed fabricFocusThrows Legacy "" =
  ([SetLegacyText ""; HandleCall Fabric Primary MFocus; HostCall 2 MFocus],
   inl "focus failed").
Proof.
  apply (X17_focus_reaches_view fabricFocusThrows Legacy
           (focusThrowingInput 2) (Throws "focus failed"));
    [ reflexivity | reflexivity | discriminate | reflexivity ].
Defined.

(* ===================================================================== *)
(** ** Native views and their change events                               *)
(* ===================================================================== *)

(** X18. Setting the [value] prop of the legacy Android view leaves the
    view with that text ([""] for [null]) and sends a change event
    exactly when the text differs, so setting the same value again is
    silent. The Fabric Android view sends a change event even when the
    prop repeats the text it already shows. *)
Theorem X18_value_prop_echo (v : EditText) (value : option string)
    (now : Z) :
  let r := AndroidLegacy.setValue v value in
  et_text (fst r) = orEmpty value /\
  (snd r = [] <-> et_text v = orEmpty value) /\
  AndroidLegacy.setValue (fst r) value = (fst r, []) /\
  snd (AndroidFabric.setValue now v (Some (et_text v))) =
    [mkReceived (et_id v) "onChangeText" (Some (et_text v)) (Some now)].
Proof.
  cbv zeta.
  unfold AndroidLegacy.setValue, AndroidLegacy.view_setValue.
  fold (orEmpty value).
  destruct (String.eqb_spec (et_text v) (orEmpty value)) as [Heq | Hne];
    cbn [negb fst snd AndroidLegacy.setText et_text].
  - rewrite <- Heq, String.eqb_refl. cbn. repeat split; auto.
  - rewrite String.eqb_refl. cbn. repeat split; auto;
      [discriminate | intros H; now contradiction Hne].
Qed.

(** X19. Every event an Android view sends, whatever happens to it, has
    a name its view manager registers. *)
Theorem X19_sent_events_are_registered (v : EditText) (a : ViewAction)
    (now : Z) (e : ReceivedEvent) :
  (In e (snd (legacy_view_step v a)) ->
   In (re_name e) AndroidLegacy.exportedEvents) /\
  (In e (snd (fabric_view_step now v a)) ->
   In (re_name e) AndroidFabric.exportedEvents).
Proof.
  split.
  - destruct a as [value | text | hasFocus];
      cbn [legacy_view_step snd]; [| | contradiction].
    + unfold AndroidLegacy.setValue, AndroidLegacy.view_setValue.
      destruct (negb _); cbn; [| contradiction].
      intros [<- | []]. cbn. auto.
    + cbn. intros [<- | []]. cbn. auto.
  - destruct a as [value | text | [|]]; cbn;
      intros [<- | []]; cbn; auto.
Qed.

Lemma X19_sent_events_are_registered_witness :
  In "onChangeText" AndroidLegacy.exportedEvents /\
  In "onFabricBlur" AndroidFabric.exportedEvents.
Proof.
  split.
  - apply (proj1 (X19_sent_events_are_registered
                    (mkEditText 5 "" "") (UserEdit "a") 1%Z
                    (mkReceived 5 "onChangeText" (Some "a") None))).
    left. reflexivity.
  - apply (proj2 (X19_sent_events_are_registered
                    (mkEditText 5 "" "") (FocusChange false) 1%Z
                    (mkReceived 5 "onFabricBlur" None None))).
    left. reflexivity.
Defined.

(** X20. A change event of an Android view carries the id of the view
    and the text the view shows after the change. *)
Theorem X20_change_event_carries_view_text (v : EditText) (a : ViewAction)
    (now : Z) (e : ReceivedEvent) :
  (In e (snd (legacy_view_step v a)) ->
   re_viewId e = et_id v /\
   re_text e = Some (et_text (fst (legacy_view_step v a)))) /\
  (In e (snd (fabric_view_step now v a)) ->
   re_name e = "onChangeText" ->
   re_viewId e = et_id v /\
   re_text e = Some (et_text (fst (fabric_view_step now v a))) /\
   re_timestamp e = Some now).
Proof.
  split.
  - destruct a as [value | text | hasFocus];
      cbn [legacy_view_step snd fst]; [| | contradiction].
    + unfold AndroidLegacy.setValue, AndroidLegacy.view_setValue.
      destruct (negb _); cbn; [| contradiction].
      intros [<- | []]. cbn. auto.
    + cbn. intros [<- | []]. cbn. auto.
  - destruct a as [value | text | [|]]; cbn;
      intros [<- | []]; cbn; auto; discriminate.
Qed.

Lemma X20_change_event_carries_view_text_witness :
  (re_viewId (mkReceived 5 "onChangeText" (Some "a") None) = 5 /\
   re_text (mkReceived 5 "onChangeText" (Some "a") None) = Some "a") /\
  (re_viewId (mkReceived 5 "onChangeText" (Some "a") (Some 7%Z)) = 5 /\
   re_text (mkReceived 5 "onChangeText" (Some "a") (Some 7%Z)) = Some "a" /\
   re_timestamp (mkReceived 5 "onChangeText" (Some "a") (Some 7%Z))
   = Some 7%Z).
Proof.
  split.
  - apply (proj1 (X20_change_event_carries_view_text
                    (mkEditText 5 "" "") (UserEdit "a") 7%Z
                    (mkReceived 5 "onChangeText" (Some "a") None))).
    left. reflexivity.
  - apply (proj2 (X20_change_event_carries_view_text
                    (mkEditText 5 "" "") (UserEdit "a") 7%Z
                    (mkReceived 5 "onChangeText" (Some "a") (Some 7%Z))));
      [left; reflexivity | reflexivity].
Defined.

(** X21. A user edit of an Android view reaches [App] as one call of the
    change handler of the slot with the new text. The Fabric wrapper
    logs the timestamp first unless it is 0; the legacy path logs
    nothing. *)
Theorem X21_user_edit_reaches_app (app : State) (v : EditText)
    (text : string) (now : Z) :
  map (deliver app Fabric) (snd (fabric_view_step now v (UserEdit text))) =
    [((if (now =? 0)%Z then [] else [FabricTextChangedAt now]),
      handleFabricChange app text)] /\
  map (deliver app Legacy) (snd (legacy_view_step v (UserEdit text))) =
    [([], handleLegacyChange app text)].
Proof.
  split; cbn; [| reflexivity].
  unfold deliver, nativeEvent. cbn.
  unfold FabricWrapper.handleChangeText. cbn.
  now destruct (now =? 0)%Z.
Qed.

(** X22. An iOS view reports a change only while an [onChangeText] block
    is set; the event then carries the text of the field, [""] when the
    field has none, and no timestamp, so the Fabric wrapper logs nothing
    for it and forwards the text. *)
Theorem X22_ios_change_event (v : IosView)
    (f : string -> M unit) (ev : NativeTextInputChangeEvent) :
  (onChangeText_set v = false -> textFieldDidChange v = []) /\
  (In ev (textFieldDidChange v) ->
   ev_text ev = orEmpty (textField_text v) /\
   FabricWrapper.handleChangeText (Some f) ev =
     ([], f (orEmpty (textField_text v))) /\
   LegacyWrapper.handleChangeText (Some f) ev =
     f (orEmpty (textField_text v))).
Proof.
  unfold textFieldDidChange. split.
  - now intros ->.
  - destruct (onChangeText_set v); [| contradiction].
    intros [<- | []]. repeat split.
Qed.

Lemma X22_ios_change_event_witness :
  (textFieldDidChange (mkIosView (Some "a") false) = []) /\
  (ev_text (mkChange "" None) = orEmpty None /\
   FabricWrapper.handleChangeText (Some (handleFabricChange bothNative))
     (mkChange "" None) =
     ([], handleFabricChange bothNative (orEmpty None)) /\
   LegacyWrapper.handleChangeText (Some (handleFabricChange bothNative))
     (mkChange "" None) =
     handleFabricChange bothNative (orEmpty None)).
Proof.
  split.
  - apply (proj1 (X22_ios_change_event (mkIosView (Some "a") false)
                    (handleFabricChange bothNative) (mkChange "" None))).
    reflexivity.
  - apply (proj2 (X22_ios_change_event (mkIosView None true)
                    (handleFabricChange bothNative) (mkChange "" None))).
    left. reflexivity.
Defined.

Lemma focus_slot_after_text (app : State) (s s' : Slot) (text : string) :
  focus_slot (apply_event app (setText s text)) s' = focus_slot app s'.
Proof. destruct s, s'; reflexivity. Qed.

(** X23. When the user empties the Fabric input on Android while the
    legacy input has text, [App] focuses the legacy input, and when the
    next render sets the emptied text as the [value] prop, the view's
    new change event makes [App] focus it a second time. On the legacy
    Android view the same prop update sends no event and nothing more is
    focused. *)
Theorem X23_android_echo_refocuses (app : State) (v : EditText)
    (now now' : Z) :
  currentText app Legacy <> "" ->
  registered app Legacy ->
  registered app Fabric ->
  let focusLegacy := [HandleCall Legacy (activeKind app Legacy) MFocus] in
  let focusFabric := [HandleCall Fabric (activeKind app Fabric) MFocus] in
  let appF := commit app (trace (handleFabricChange app "")) in
  let vF := fst (fabric_view_step now v (UserEdit "")) in
  let appL := commit app (trace (handleLegacyChange app "")) in
  let vL := fst (legacy_view_step v (UserEdit "")) in
  focus_of_events app Fabric (snd (fabric_view_step now v (UserEdit "")))
    = focusLegacy /\
  focus_of_events appF Fabric
    (snd (fabric_view_step now' vF (PropValue (Some (fabricText appF)))))
    = focusLegacy /\
  (currentText app Fabric <> "" ->
   focus_of_events app Legacy (snd (legacy_view_step v (UserEdit "")))
     = focusFabric /\
   focus_of_events appL Legacy
     (snd (legacy_view_step vL (PropValue (Some (legacyText appL)))))
     = []).
Proof.
  intros HtL HrL HrF. cbv zeta.
  change (handleFabricChange app "") with (on_text_changed app Fabric "").
  change (handleLegacyChange app "") with (on_text_changed app Legacy "").
  rewrite !commit_on_text_changed.
  pose proof (focus_commands_on_text_changed app Fabric "") as H1.
  pose proof (focus_commands_on_text_changed
                (apply_event app (setText Fabric "")) Fabric "") as H2.
  rewrite focus_slot_after_text in H2.
  cbn [other currentText apply_event setText legacyText] in H1, H2.
  apply String.eqb_neq in HtL. cbn in HtL. rewrite HtL in H1, H2.
  cbn [String.eqb andb negb] in H1, H2.
  rewrite (focus_slot_registered app Legacy HrL) in H1, H2.
  repeat split.
  - unfold focus_of_events, deliver, nativeEvent. cbn.
    unfold FabricWrapper.handleChangeText. cbn [snd ev_text].
    rewrite app_nil_r. exact H1.
  - unfold focus_of_events, deliver, nativeEvent. cbn.
    unfold FabricWrapper.handleChangeText. cbn [snd ev_text].
    rewrite app_nil_r. exact H2.
  - pose proof (focus_commands_on_text_changed app Legacy "") as H3.
    cbn [other currentText] in H3.
    apply String.eqb_neq in H. cbn in H. rewrite H in H3.
    cbn [String.eqb andb negb] in H3.
    rewrite (focus_slot_registered app Fabric HrF) in H3.
    unfold focus_of_events, deliver, nativeEvent. cbn.
    unfold LegacyWrapper.handleChangeText. cbn [snd].
    rewrite app_nil_r. exact H3.
Qed.

Lemma X23_android_echo_refocuses_witness :
  focus_of_events bothNative Fabric
    (snd (fabric_view_step 5%Z (mkEditText 2 "world" "") (UserEdit "")))
    = [HandleCall Legacy Primary MFocus] /\
  focus_of_events (commit bothNative (trace (handleFabricChange bothNative "")))
    Fabric
    (snd (fabric_view_step 6%Z
            (fst (fabric_view_step 5%Z (mkEditText 2 "world" "")
                    (UserEdit "")))
            (PropValue (Some ""))))
    = [HandleCall Legacy Primary MFocus].
Proof.
  destruct (X23_android_echo_refocuses bothNative (mkEditText 2 "world" "")
              5%Z 6%Z) as (H1 & H2 & _);
    [ discriminate | reflexivity | reflexivity | ].
  split; [exact H1 | exact H2].
Defined.
